(** * nodejs-demo-app: the two-route Express service, embedded and verified

    The program is [index.js]: it builds an Express application, installs the
    JSON body parser, registers [GET /] and [GET /health], and listens on
    [process.env.PORT || 3000].  The handlers call into the JavaScript
    runtime ([new Date().toISOString()], [process.uptime()]) and into
    Express ([express.json()], [app.get], [res.json]).  The embedding
    below is layered accordingly:

    - [JSDate]: time values and the ISO-8601 text [toISOString] produces,
      with the reader [parseISO] for that format;
    - [JSON]: the values [res.json] sends and the grammar the body parser
      checks;
    - [Runtime]: the clocks, the process-wide state, and the small
      reader/state/exception monad in which handler code runs;
    - [Express]: requests, responses, [express.json()] and the router;
    - [App]: the program itself, its two handlers, its stack of layers and
      its port.

    Floating-point seconds are kept as exact fractions ([Q]). *)

From Stdlib Require Import ZArith QArith Lia List String Ascii Bool.
From stdpp Require Import gmap strings.
Import ListNotations.

Local Open Scope Z_scope.

(** ** Time values and ISO-8601 text *)

Module JSDate.

(** A time value is a number of milliseconds since 1970-01-01T00:00:00Z. *)
Definition msPerDay : Z := 86400000.
Definition maxTime : Z := 8640000000000000.

(** ECMAScript [TimeClip]: readings outside +-8.64e15 ms are not dates. *)
Definition valid_time (t : Z) : bool :=
  (- maxTime <=? t) && (t <=? maxTime).

(** A [Date] object holds a time value or [NaN] (here [None]). *)
Definition Date := option Z.

Definition TimeClip (t : Z) : Date :=
  if valid_time t then Some t else None.

Definition Day (t : Z) : Z := t / msPerDay.
Definition TimeWithinDay (t : Z) : Z := t mod msPerDay.

Definition HourFromTime (t : Z) : Z := (t / 3600000) mod 24.
Definition MinFromTime (t : Z) : Z := (t / 60000) mod 60.
Definition SecFromTime (t : Z) : Z := (t / 1000) mod 60.
Definition msFromTime (t : Z) : Z := t mod 1000.

(** Proleptic Gregorian calendar, by 400-year eras that start on 1 March.
    [doe] is the day of the era, [yoe] the year of the era, [doy] the day of
    the March-based year and [mp] the March-based month. *)
Definition daysPerEra : Z := 146097.
Definition epochShift : Z := 719468.

Definition yoe_of_doe (doe : Z) : Z :=
  (doe - doe / 1460 + doe / 36524 - doe / 146096) / 365.

Definition doy_of (doe yoe : Z) : Z :=
  doe - (365 * yoe + yoe / 4 - yoe / 100).

Definition mp_of_doy (doy : Z) : Z := (5 * doy + 2) / 153.

Definition month_of_mp (mp : Z) : Z := if mp <? 10 then mp + 3 else mp - 9.

Definition civil_from_days (z : Z) : Z * Z * Z :=
  let z' := z + epochShift in
  let era := z' / daysPerEra in
  let doe := z' mod daysPerEra in
  let yoe := yoe_of_doe doe in
  let doy := doy_of doe yoe in
  let mp := mp_of_doy doy in
  let d := doy - (153 * mp + 2) / 5 + 1 in
  let m := month_of_mp mp in
  let y := yoe + era * 400 in
  ((if m <=? 2 then y + 1 else y), m, d).

Definition days_from_civil (y m d : Z) : Z :=
  let y' := if m <=? 2 then y - 1 else y in
  let era := y' / 400 in
  let yoe := y' mod 400 in
  let mp := if 2 <? m then m - 3 else m + 9 in
  let doy := (153 * mp + 2) / 5 + d - 1 in
  let doe := yoe * 365 + yoe / 4 - yoe / 100 + doy in
  era * daysPerEra + doe - epochShift.

Definition is_leap (y : Z) : bool :=
  (y mod 4 =? 0) && (negb (y mod 100 =? 0) || (y mod 400 =? 0)).

(** The calendar as ECMAScript states it: the day number on which a year
    starts, the length of a year, and the days of a year that precede a
    month.  [YearFromTime t] is the year [y] with
    [DayFromYear y <= Day t < DayFromYear (y + 1)]. *)
Definition DayFromYear (y : Z) : Z :=
  365 * (y - 1970) + (y - 1969) / 4 - (y - 1901) / 100 + (y - 1601) / 400.

Definition DaysInYear (y : Z) : Z := if is_leap y then 366 else 365.

Definition days_before_month (y m : Z) : Z :=
  nth (Z.to_nat (m - 1))
      [0; 31; 59; 90; 120; 151; 181; 212; 243; 273; 304; 334] 0
  + (if is_leap y && (2 <? m) then 1 else 0).

Definition days_in_month (y m : Z) : Z :=
  if m =? 2 then (if is_leap y then 29 else 28)
  else if (m =? 4) || (m =? 6) || (m =? 9) || (m =? 11) then 30
  else 31.

(** *** Decimal fields *)

Definition digit_char (d : Z) : ascii :=
  ascii_of_N (48 + Z.to_N d).

Definition digit_value (c : ascii) : option Z :=
  let n := Z.of_N (N_of_ascii c) in
  if (48 <=? n) && (n <=? 57) then Some (n - 48) else None.

(** [pad k n]: the [k] low decimal digits of [n], most significant first. *)
Fixpoint pad (k : nat) (n : Z) : list ascii :=
  match k with
  | O => []
  | S k' => pad k' (n / 10) ++ [digit_char (n mod 10)]
  end.

(** [read_digits k acc cs]: read exactly [k] decimal digits off [cs]. *)
Fixpoint read_digits (k : nat) (acc : Z) (cs : list ascii)
  : option (Z * list ascii) :=
  match k with
  | O => Some (acc, cs)
  | S k' =>
      match cs with
      | c :: cs' =>
          match digit_value c with
          | Some d => read_digits k' (10 * acc + d) cs'
          | None => None
          end
      | [] => None
      end
  end.

Definition expect (c : ascii) (cs : list ascii) : option (list ascii) :=
  match cs with
  | c' :: cs' => if Ascii.eqb c c' then Some cs' else None
  | [] => None
  end.

(** *** [Date.prototype.toISOString] *)

Definition year_field (y : Z) : list ascii :=
  if (0 <=? y) && (y <=? 9999) then pad 4 y
  else if y <? 0 then "-"%char :: pad 6 (- y)
  else "+"%char :: pad 6 y.

Definition iso_chars (t : Z) : list ascii :=
  let '(y, m, d) := civil_from_days (Day t) in
  year_field y ++ "-"%char :: pad 2 m ++ "-"%char :: pad 2 d
    ++ "T"%char :: pad 2 (HourFromTime t)
    ++ ":"%char :: pad 2 (MinFromTime t)
    ++ ":"%char :: pad 2 (SecFromTime t)
    ++ "."%char :: pad 3 (msFromTime t) ++ ["Z"%char].

(** Throws [RangeError] (here [None]) on an invalid date. *)
Definition toISOString (d : Date) : option string :=
  match d with
  | Some t => Some (string_of_list_ascii (iso_chars t))
  | None => None
  end.

(** *** Reading the format back *)

Definition read_year (cs : list ascii) : option (Z * list ascii) :=
  match cs with
  | c :: cs' =>
      if Ascii.eqb c "+"%char then read_digits 6 0 cs'
      else if Ascii.eqb c "-"%char then
        match read_digits 6 0 cs' with
        | Some (y, r) => if y =? 0 then None else Some (- y, r)
        | None => None
        end
      else read_digits 4 0 cs
  | [] => None
  end.

Definition parse_chars (cs : list ascii) : option Z :=
  match read_year cs with
  | Some (y, r) =>
  match expect "-"%char r with Some r =>
  match read_digits 2 0 r with Some (m, r) =>
  match expect "-"%char r with Some r =>
  match read_digits 2 0 r with Some (d, r) =>
  match expect "T"%char r with Some r =>
  match read_digits 2 0 r with Some (hh, r) =>
  match expect ":"%char r with Some r =>
  match read_digits 2 0 r with Some (mi, r) =>
  match expect ":"%char r with Some r =>
  match read_digits 2 0 r with Some (ss, r) =>
  match expect "."%char r with Some r =>
  match read_digits 3 0 r with Some (ms, r) =>
  match r with
  | [z] =>
      if Ascii.eqb z "Z"%char
         && (1 <=? m) && (m <=? 12)
         && (1 <=? d) && (d <=? days_in_month y m)
         && (hh <=? 23) && (mi <=? 59) && (ss <=? 59)
      then TimeClip (days_from_civil y m d * msPerDay
                     + hh * 3600000 + mi * 60000 + ss * 1000 + ms)
      else None
  | _ => None
  end
  | None => None end | None => None end | None => None end
  | None => None end | None => None end | None => None end
  | None => None end | None => None end | None => None end
  | None => None end | None => None end | None => None end
  | None => None
  end.

(** [parseISO s]: the instant an ISO-8601 UTC timestamp denotes, if [s] is
    one: [YYYY-MM-DDTHH:mm:ss.sssZ], the year possibly in the expanded form
    of a sign and six digits (minus zero excluded), every field in range
    for the calendar. *)
Definition parseISO (s : string) : option Z :=
  parse_chars (list_ascii_of_string s).

End JSDate.

(** ** JSON: the values sent by [res.json] and the text read by the body parser *)

Module JSON.

#[warnings="-register-all"]
Inductive value : Type :=
| JNull
| JBool (b : bool)
| JNumber (q : Q)
| JString (s : string)
| JArray (items : list value)
| JObject (fields : list (string * value)).

Fixpoint assoc (k : string) (fs : list (string * value)) : option value :=
  match fs with
  | [] => None
  | (k', v) :: rest => if String.eqb k k' then Some v else assoc k rest
  end.

(** Property access [obj.k] on a parsed body. *)
Definition field (k : string) (v : value) : option value :=
  match v with
  | JObject fs => assoc k fs
  | _ => None
  end.

Definition keys (v : value) : list string :=
  match v with
  | JObject fs => map fst fs
  | _ => []
  end.

(** *** The JSON grammar (ECMA-404), as a recogniser over characters.
    Each function returns the input left after what it recognised. *)

(** The double quote, by its code. *)
Definition dquote : ascii := "034".

Definition is_ws (c : ascii) : bool :=
  Ascii.eqb c " " || Ascii.eqb c "009" || Ascii.eqb c "010" || Ascii.eqb c "013".

Fixpoint skip_ws (cs : list ascii) : list ascii :=
  match cs with
  | c :: r => if is_ws c then skip_ws r else cs
  | [] => []
  end.

Definition code (c : ascii) : N := N_of_ascii c.

Definition is_digit (c : ascii) : bool := ((48 <=? code c) && (code c <=? 57))%N.

Definition is_hex (c : ascii) : bool :=
  (is_digit c || ((65 <=? code c) && (code c <=? 70))
              || ((97 <=? code c) && (code c <=? 102)))%N.

Fixpoint skip_digits (cs : list ascii) : list ascii :=
  match cs with
  | c :: r => if is_digit c then skip_digits r else cs
  | [] => []
  end.

Definition digits1 (cs : list ascii) : option (list ascii) :=
  match cs with
  | c :: r => if is_digit c then Some (skip_digits r) else None
  | [] => None
  end.

Definition number (cs : list ascii) : option (list ascii) :=
  let unsigned :=
    match cs with
    | c :: r => if Ascii.eqb c "-" then r else cs
    | [] => cs
    end in
  let after_int :=
    match unsigned with
    | c :: r => if Ascii.eqb c "0" then Some r
                else if is_digit c then Some (skip_digits r) else None
    | [] => None
    end in
  let after_frac :=
    match after_int with
    | Some (c :: r) => if Ascii.eqb c "." then digits1 r else after_int
    | other => other
    end in
  match after_frac with
  | Some (c :: r) =>
      if Ascii.eqb c "e" || Ascii.eqb c "E" then
        match r with
        | s :: r' => if Ascii.eqb s "+" || Ascii.eqb s "-" then digits1 r'
                     else digits1 r
        | [] => None
        end
      else after_frac
  | other => other
  end.

Definition is_escape (c : ascii) : bool :=
  Ascii.eqb c dquote || Ascii.eqb c "\" || Ascii.eqb c "/" || Ascii.eqb c "b"
  || Ascii.eqb c "f" || Ascii.eqb c "n" || Ascii.eqb c "r" || Ascii.eqb c "t".

(** The characters of a string literal, after its opening quote. *)
Fixpoint string_chars (cs : list ascii) : option (list ascii) :=
  match cs with
  | [] => None
  | c :: r =>
      if Ascii.eqb c dquote then Some r
      else if Ascii.eqb c "\" then
        match r with
        | e :: r1 =>
            if is_escape e then string_chars r1
            else if Ascii.eqb e "u" then
              match r1 with
              | h1 :: h2 :: h3 :: h4 :: r2 =>
                  if is_hex h1 && is_hex h2 && is_hex h3 && is_hex h4
                  then string_chars r2 else None
              | _ => None
              end
            else None
        | [] => None
        end
      else if (code c <? 32)%N then None
      else string_chars r
  end.

Fixpoint literal (word cs : list ascii) : option (list ascii) :=
  match word, cs with
  | [], _ => Some cs
  | w :: word', c :: cs' => if Ascii.eqb w c then literal word' cs' else None
  | _ :: _, [] => None
  end.

(** [element fuel cs]: one value with the white space around it;
    [elements] and [members] read what follows the first item of an array
    or an object up to the closing bracket. *)
Fixpoint element (fuel : nat) (cs : list ascii) : option (list ascii) :=
  match fuel with
  | O => None
  | S n =>
      match skip_ws cs with
      | [] => None
      | c :: r =>
          if Ascii.eqb c "{" then
            match skip_ws r with
            | c' :: r' => if Ascii.eqb c' "}" then Some (skip_ws r')
                          else members n (c' :: r')
            | [] => None
            end
          else if Ascii.eqb c "[" then
            match skip_ws r with
            | c' :: r' => if Ascii.eqb c' "]" then Some (skip_ws r')
                          else elements n (c' :: r')
            | [] => None
            end
          else if Ascii.eqb c dquote then option_map skip_ws (string_chars r)
          else if Ascii.eqb c "t" then
            option_map skip_ws (literal (list_ascii_of_string "rue") r)
          else if Ascii.eqb c "f" then
            option_map skip_ws (literal (list_ascii_of_string "alse") r)
          else if Ascii.eqb c "n" then
            option_map skip_ws (literal (list_ascii_of_string "ull") r)
          else option_map skip_ws (number (c :: r))
      end
  end
with elements (fuel : nat) (cs : list ascii) : option (list ascii) :=
  match fuel with
  | O => None
  | S n =>
      match element n cs with
      | Some (c :: r) =>
          if Ascii.eqb c "," then elements n r
          else if Ascii.eqb c "]" then Some (skip_ws r)
          else None
      | _ => None
      end
  end
with members (fuel : nat) (cs : list ascii) : option (list ascii) :=
  match fuel with
  | O => None
  | S n =>
      match skip_ws cs with
      | q :: r =>
          if Ascii.eqb q dquote then
            match option_map skip_ws (string_chars r) with
            | Some (c :: r1) =>
                if Ascii.eqb c ":" then
                  match element n r1 with
                  | Some (c' :: r2) =>
                      if Ascii.eqb c' "," then members n r2
                      else if Ascii.eqb c' "}" then Some (skip_ws r2)
                      else None
                  | _ => None
                  end
                else None
            | _ => None
            end
          else None
      | [] => None
      end
  end.

(** [wellformed s]: [JSON.parse s] returns a value instead of throwing
    [SyntaxError].  Every call of the recogniser either consumes a character
    or descends one level, so twice the length bounds the depth. *)
Definition wellformed (s : string) : bool :=
  let cs := list_ascii_of_string s in
  match element (2 * List.length cs + 2) cs with
  | Some [] => true
  | _ => false
  end.

End JSON.

(** ** The Node.js runtime seen by the program: clocks, process state, effects *)

Module Runtime.

(** One reading of the two clocks: the wall clock behind [new Date()]
    (milliseconds since the epoch) and the monotonic clock behind
    [process.uptime()] (nanoseconds). *)
Record Clock := { wall_ms : Z; hrtime_ns : Z }.

(** Process-wide state: the environment block and the monotonic time at
    which the runtime started. *)
Record Process := {
  env : gmap string string;
  start_time : Z
}.

(** Process initialization: the start time is taken from the clock. *)
Definition boot (e : gmap string string) (c : Clock) : Process :=
  {| env := e; start_time := hrtime_ns c |}.

Inductive Exn := RangeError | TypeError.

(** Handler code reads the clock, may read or write the process state and
    may throw. *)
Definition Eff (A : Type) : Type := Clock -> Process -> (Exn + A) * Process.

Definition ret {A} (a : A) : Eff A := fun _ p => (inr a, p).

Definition bind {A B} (m : Eff A) (k : A -> Eff B) : Eff B :=
  fun c p =>
    match m c p with
    | (inr a, p') => k a c p'
    | (inl e, p') => (inl e, p')
    end.

Definition throw {A} (e : Exn) : Eff A := fun _ p => (inl e, p).

Definition get_process : Eff Process := fun _ p => (inr p, p).

Definition put_process (p : Process) : Eff unit := fun _ _ => (inr tt, p).

Definition read_clock : Eff Clock := fun c p => (inr c, p).

Declare Scope eff_scope.
Delimit Scope eff_scope with eff.
Notation "x <- m ;; k" := (bind m (fun x => k))
  (at level 100, m at next level, right associativity) : eff_scope.

Local Open Scope eff_scope.

(** [new Date()]: the current wall-clock time as a [Date]. *)
Definition new_Date : Eff JSDate.Date :=
  c <- read_clock ;; ret (JSDate.TimeClip (wall_ms c)).

(** [d.toISOString()], which throws on an invalid date. *)
Definition Date_toISOString (d : JSDate.Date) : Eff string :=
  match JSDate.toISOString d with
  | Some s => ret s
  | None => throw RangeError
  end.

Definition nsPerSec : positive := 1000000000.

(** [process.uptime()]: seconds elapsed on the monotonic clock since the
    runtime started, as an exact fraction.  The runtime returns the double
    nearest to it: the sign and the order of two readings survive the
    rounding, sums and differences of readings need not. *)
Definition process_uptime : Eff Q :=
  c <- read_clock ;;
  p <- get_process ;;
  ret ((hrtime_ns c - start_time p) # nsPerSec).

(** *** [process.env.PORT || 3000] and [listen] *)

Inductive JSValue := JSNum (n : Z) | JSStr (s : string).

(** [a || b] on an optional string: [undefined] and the empty string are
    falsy, every other string is truthy and is the result. *)
Definition or_default (a : option string) (b : JSValue) : JSValue :=
  match a with
  | Some s => if String.eqb s "" then b else JSStr s
  | None => b
  end.

Fixpoint decimal (acc : Z) (cs : list ascii) : option Z :=
  match cs with
  | [] => Some acc
  | c :: r =>
      match JSDate.digit_value c with
      | Some d => decimal (10 * acc + d) r
      | None => None
      end
  end.

(** The TCP port [server.listen(v)] binds, where that is a number from 1
    to 65535 or a string of decimal digits that reads as one.  [None]
    stands for every other value, of which nothing is said here: 0, for
    which the system picks a port; the other forms of a number that
    [listen] reads from a string (the hexadecimal form, an exponent, a
    sign, spaces around); a number out of range, which [listen] refuses; a
    string that is no number, which names a pipe. *)
Definition tcp_port (v : JSValue) : option Z :=
  let in_range n := if (1 <=? n) && (n <=? 65535) then Some n else None in
  match v with
  | JSNum n => in_range n
  | JSStr s =>
      match list_ascii_of_string s with
      | [] => None
      | cs => match decimal 0 cs with
              | Some n => in_range n
              | None => None
              end
      end
  end.

End Runtime.

(** ** Express: requests, responses, the body parser and the router

    The dependencies are those of Express 4: body-parser 1.x, iconv-lite
    0.4, finalhandler 1.x. *)

Module Express.
Import Runtime.

Inductive Method :=
  GET | HEAD | POST | PUT | DELETE | PATCH | OPTIONS | TRACE.

Definition Method_eqb (a b : Method) : bool :=
  match a, b with
  | GET, GET | HEAD, HEAD | POST, POST | PUT, PUT
  | DELETE, DELETE | PATCH, PATCH | OPTIONS, OPTIONS | TRACE, TRACE => true
  | _, _ => false
  end.

(** How the message frames its body: not at all, by a [Content-Length], or
    by a chunked [Transfer-Encoding]. *)
Inductive Framing := NoFraming | ContentLength | Chunked.

(** A request as the layers of the application read it.

    - [conditional]: the validators of a conditional request.  [None] when
      the message has neither [If-None-Match] nor [If-Modified-Since];
      otherwise the test these headers (with [Cache-Control]) make of the
      [ETag] of an answer, which Express derives from the JSON it sends:
      [req.fresh] as a function of that JSON.
    - [framing], [content_coding], [media_type], [charset]: what
      [Content-Length] and [Transfer-Encoding], [Content-Encoding] and the
      two parts of [Content-Type] say.
    - [inflates]: whether the payload is a sound stream of its content
      coding, so that inflating it does not fail; of no account when the
      coding is [identity].
    - [body_size]: the number of bytes the payload delivers once inflated,
      up to its end or to the point where inflating fails.
    - [body_text]: the text iconv-lite decodes these bytes to under the
      charset in force (byte-order mark stripped), or [None] when
      iconv-lite has no decoder of that name.
    - [other_headers]: the header fields no layer reads. *)
Record Request := {
  method : Method;
  path : string;
  query : string;
  other_headers : list (string * string);
  conditional : option (JSON.value -> bool);
  framing : Framing;
  content_coding : option string;
  media_type : option string;
  charset : option string;
  inflates : bool;
  body_size : N;
  body_text : option string
}.

(** What an answer carries.  The page written for a request no route took
    names its method and path ("Cannot GET /nonexistent"); the page written
    for an error shows the error, which depends on the request, and in the
    form [NODE_ENV] selects, which depends on the environment. *)
Inductive Body :=
| NoBody
| JsonBody (v : JSON.value)
| TextBody (s : string)
| NotFoundPage (m : Method) (resource : string)
| ErrorPage (code : Z) (about : Request) (e : gmap string string).

Record Response := { status : Z; body : Body }.

Definition Handler : Type := Request -> Eff Response.

(** [res.json(obj)]: the object is handed to [res.send] with the status at
    its default 200.  What [res.send] makes of it for the request at hand
    is [send], below. *)
Definition res_json (obj : JSON.value) : Eff Response :=
  ret {| status := 200; body := JsonBody obj |}.

(** *** [express.json()] with its default options *)

Inductive Next := Pass | Fail (code : Z).

Definition lower_char (c : ascii) : ascii :=
  let n := N_of_ascii c in
  if ((65 <=? n) && (n <=? 90))%N then ascii_of_N (n + 32) else c.

Fixpoint lower (s : string) : string :=
  match s with
  | EmptyString => EmptyString
  | String c r => String (lower_char c) (lower r)
  end.

(** [typeis.hasBody]: a [Content-Length] or a [Transfer-Encoding] is
    present. *)
Definition has_body (req : Request) : bool :=
  match framing req with
  | NoFraming => false
  | _ => true
  end.

Definition is_json_type (req : Request) : bool :=
  match media_type req with
  | Some t => String.eqb (lower t) "application/json"
  | None => false
  end.

(** The charset in force: the one the [Content-Type] names, in lower case,
    and [utf-8] when it names none or an empty one. *)
Definition charset_name (req : Request) : string :=
  match charset req with
  | Some cs => if String.eqb cs "" then "utf-8" else lower cs
  | None => "utf-8"
  end.

(** The first check, on the name of the charset alone: it has to begin
    with [utf-]. *)
Definition charset_is_utf (req : Request) : bool :=
  String.prefix "utf-" (charset_name req).

(** The content codings the parser reads: none, [identity], and [gzip]
    and [deflate], which it inflates. *)
Definition coding_name (req : Request) : string :=
  match content_coding req with
  | Some c => if String.eqb c "" then "identity" else lower c
  | None => "identity"
  end.

Definition coding_supported (req : Request) : bool :=
  String.eqb (coding_name req) "identity"
  || String.eqb (coding_name req) "gzip"
  || String.eqb (coding_name req) "deflate".

(** The length is known before the body is read when the payload is not
    coded and a [Content-Length] frames it. *)
Definition length_known (req : Request) : bool :=
  String.eqb (coding_name req) "identity"
  && match framing req with ContentLength => true | _ => false end.

(** The default [limit] option, 100kb. *)
Definition limit : N := 102400.

(** The [strict] option: the first character that is not white space has to
    open an object or an array. *)
Definition strict_first (s : string) : bool :=
  match JSON.skip_ws (list_ascii_of_string s) with
  | c :: _ => Ascii.eqb c "{" || Ascii.eqb c "["
  | [] => false
  end.

(** [parse(body)] of the JSON parser, on the decoded text. *)
Definition parse_text (text : string) : Next :=
  if String.eqb text "" then Pass
  else if negb (strict_first text) then Fail 400
  else if JSON.wellformed text then Pass
  else Fail 400.

(** Inflating the payload succeeds. *)
Definition payload_sound (req : Request) : bool :=
  String.eqb (coding_name req) "identity" || inflates req.

(** The middleware, check by check in the order of the code: no body, not
    JSON, charset name, content coding, declared length, decoder, length
    read, failure to inflate, text. *)
Definition json_parser (req : Request) : Next :=
  if negb (has_body req) then Pass
  else if negb (is_json_type req) then Pass
  else if negb (charset_is_utf req) then Fail 415
  else if negb (coding_supported req) then Fail 415
  else if length_known req && (limit <? body_size req)%N then Fail 413
  else
    match body_text req with
    | None => Fail 415
    | Some text =>
        if (limit <? body_size req)%N then Fail 413
        else if negb (payload_sound req) then Fail 400
        else parse_text text
    end.

(** *** The router *)

Inductive Layer :=
| Use (mw : Request -> Next)
| Route (m : Method) (pattern : string) (h : Handler).

Definition ends_with_slash (s : string) : bool :=
  match rev (list_ascii_of_string s) with
  | c :: _ => Ascii.eqb c "/"
  | [] => false
  end.

Definition drop_last (s : string) : string :=
  string_of_list_ascii (removelast (list_ascii_of_string s)).

(** Route paths are matched whole, without regard to case and with an
    optional trailing slash (the defaults of [case sensitive routing] and
    [strict routing]). *)
Definition path_matches (pattern p : string) : bool :=
  let pat := lower pattern in
  let p := lower p in
  if ends_with_slash pat
  then String.eqb p pat || String.eqb p (drop_last pat)
  else String.eqb p pat || String.eqb p (pat ++ "/").

(** A route registered for [GET] also answers [HEAD]. *)
Definition handles_method (m req_m : Method) : bool :=
  Method_eqb m req_m
  || (Method_eqb m GET && Method_eqb req_m HEAD).

(** The methods a route reports for the automatic [OPTIONS] answer. *)
Definition route_options (m : Method) : list Method :=
  match m with
  | GET => [GET; HEAD]
  | _ => [m]
  end.

Definition add_method (ms : list Method) (m : Method) : list Method :=
  if existsb (Method_eqb m) ms then ms else ms ++ [m].

Definition append_methods (ms new : list Method) : list Method :=
  fold_left add_method new ms.

(** Where the router sends a request. *)
Inductive Outcome :=
| Invoke (h : Handler)
| Rejected (code : Z)
| AutoOptions (allow : list Method)
| NotFound.

Fixpoint route (stack : list Layer) (allow : list Method) (req : Request)
  : Outcome :=
  match stack with
  | [] =>
      match method req, allow with
      | OPTIONS, _ :: _ => AutoOptions allow
      | _, _ => NotFound
      end
  | Use mw :: rest =>
      match mw req with
      | Pass => route rest allow req
      | Fail code => Rejected code
      end
  | Route m pattern h :: rest =>
      if path_matches pattern (path req) then
        if handles_method m (method req) then Invoke h
        else
          match method req with
          | OPTIONS => route rest (append_methods allow (route_options m)) req
          | _ => route rest allow req
          end
      else route rest allow req
  end.

Definition method_name (m : Method) : string :=
  match m with
  | GET => "GET" | HEAD => "HEAD" | POST => "POST" | PUT => "PUT"
  | DELETE => "DELETE" | PATCH => "PATCH" | OPTIONS => "OPTIONS"
  | TRACE => "TRACE"
  end.

(** [finalhandler]: the answer to a request no route took, and the answer
    to an error. *)
Definition not_found (req : Request) : Response :=
  {| status := 404; body := NotFoundPage (method req) (path req) |}.

Definition error_response (code : Z) (req : Request)
    (e : gmap string string) : Response :=
  {| status := code; body := ErrorPage code req e |}.

(** A [HEAD] request gets the status and headers of the answer, not its body. *)
Definition for_method (m : Method) (r : Response) : Response :=
  match m with
  | HEAD => {| status := status r; body := NoBody |}
  | _ => r
  end.

(** [req.fresh]: a [GET] or [HEAD] whose validators accept the answer about
    to be sent, the status being 2xx or 304. *)
Definition fresh (req : Request) (r : Response) : bool :=
  match method req with
  | GET | HEAD =>
      (((200 <=? status r) && (status r <? 300)) || (status r =? 304))
      && match conditional req, body r with
         | Some accepts, JsonBody v => accepts v
         | _, _ => false
         end
  | _ => false
  end.

(** [res.send]: a fresh request is answered 304 without a body, and a
    [HEAD] request without a body in any case. *)
Definition send (req : Request) (r : Response) : Response :=
  for_method (method req)
    (if fresh req r then {| status := 304; body := NoBody |} else r).

(** Carrying out the router's decision.  An exception thrown by a handler
    is caught by the router and answered with status 500. *)
Definition respond (o : Outcome) (req : Request)
  : Clock -> Process -> Response * Process :=
  fun c p =>
    match o with
    | Invoke h =>
        match h req c p with
        | (inr r, p') => (send req r, p')
        | (inl _, p') =>
            (for_method (method req) (error_response 500 req (env p')), p')
        end
    | Rejected code =>
        (for_method (method req) (error_response code req (env p)), p)
    | AutoOptions allow =>
        ({| status := 200;
            body := TextBody (String.concat "," (map method_name allow)) |}, p)
    | NotFound => (for_method (method req) (not_found req), p)
    end.

Definition handle (stack : list Layer) (req : Request)
  : Clock -> Process -> Response * Process :=
  respond (route stack [] req) req.

End Express.

(** ** The application: [index.js] *)

Module App.
Import Runtime Express JSON.
Local Open Scope eff_scope.

(** [const PORT = process.env.PORT || 3000;] *)
Definition PORT (e : gmap string string) : JSValue :=
  or_default (e !! "PORT"%string) (JSNum 3000).

(** [app.get('/', (req, res) => { res.json({...}) })] *)
Definition root_handler (req : Request) : Eff Response :=
  d <- new_Date ;;
  timestamp <- Date_toISOString d ;;
  res_json (JObject [("message"%string, JString "Welcome to Node.js Demo App!");
                     ("status"%string, JString "success");
                     ("timestamp"%string, JString timestamp)]).

(** [app.get('/health', (req, res) => { res.json({...}) })] *)
Definition health_handler (req : Request) : Eff Response :=
  uptime <- process_uptime ;;
  res_json (JObject [("status"%string, JString "healthy");
                     ("uptime"%string, JNumber uptime)]).

(** The stack built by [app.use(express.json())] and the two [app.get]. *)
Definition app : list Layer :=
  [ Use json_parser;
    Route GET "/" root_handler;
    Route GET "/health" health_handler ].

(** One request served by the application. *)
Definition serve (req : Request) : Clock -> Process -> Response * Process :=
  handle app req.

(** A process lifetime: requests served one after the other, each at its
    own clock reading. *)
Fixpoint run (p : Process) (trace : list (Clock * Request))
  : list Response * Process :=
  match trace with
  | [] => ([], p)
  | (c, req) :: rest =>
      let '(r, p1) := serve req c p in
      let '(rs, p2) := run p1 rest in
      (r :: rs, p2)
  end.

(** [app.listen(PORT, ...)]: the port the server binds. *)
Definition listen_port (e : gmap string string) : option Z :=
  tcp_port (PORT e).

(** *** Reading answers *)

Definition json_of (r : Response) : option JSON.value :=
  match body r with
  | JsonBody v => Some v
  | _ => None
  end.

Definition response_field (k : string) (r : Response) : option JSON.value :=
  match json_of r with
  | Some v => field k v
  | None => None
  end.

Definition timestamp_of (r : Response) : option string :=
  match response_field "timestamp" r with
  | Some (JString s) => Some s
  | _ => None
  end.

Definition uptime_of (r : Response) : option Q :=
  match response_field "uptime" r with
  | Some (JNumber q) => Some q
  | _ => None
  end.

Definition is_dynamic (k : string) : bool :=
  String.eqb k "timestamp" || String.eqb k "uptime".

(** The shape of an answer: its status and body with the values of the two
    time-dependent fields blanked. *)
Definition blank_dynamic (fs : list (string * JSON.value))
  : list (string * JSON.value) :=
  map (fun kv => if is_dynamic (fst kv) then (fst kv, JNull) else kv) fs.

Definition shape (r : Response) : Response :=
  match body r with
  | JsonBody (JObject fs) =>
      {| status := status r; body := JsonBody (JObject (blank_dynamic fs)) |}
  | _ => r
  end.

(** *** The two answers, as functions of what the clocks show *)

Definition iso_string (t : Z) : string :=
  string_of_list_ascii (JSDate.iso_chars t).

Definition welcome (ts : string) : Response :=
  {| status := 200;
     body := JsonBody (JObject
       [("message"%string, JString "Welcome to Node.js Demo App!");
        ("status"%string, JString "success");
        ("timestamp"%string, JString ts)]) |}.

Definition healthy (up : Q) : Response :=
  {| status := 200;
     body := JsonBody (JObject [("status"%string, JString "healthy");
                                ("uptime"%string, JNumber up)]) |}.

(** The paths and methods for which a route is registered. *)
Definition registered_path (p : string) : bool :=
  path_matches "/" p || path_matches "/health" p.

(** The methods the router answers on a registered path: the route's own,
    [HEAD] through it, and [OPTIONS] by itself. *)
Definition routed_method (m : Method) : bool :=
  match m with
  | GET | HEAD | OPTIONS => true
  | _ => false
  end.

End App.

(** ** Sample requests, clocks and processes *)

Module Samples.
Import Runtime Express App.

(** JSON text written with apostrophes where the double quotes go. *)
Fixpoint json (s : string) : string :=
  match s with
  | EmptyString => EmptyString
  | String c r => String (if Ascii.eqb c "'" then JSON.dquote else c) (json r)
  end.

Definition get (p : string) : Request :=
  {| method := GET; path := p; query := ""; other_headers := [];
     conditional := None; framing := NoFraming; content_coding := None;
     media_type := None; charset := None; inflates := true;
     body_size := 0; body_text := Some ""%string |}.

Definition with_method (m : Method) (r : Request) : Request :=
  {| method := m; path := path r; query := query r;
     other_headers := other_headers r; conditional := conditional r;
     framing := framing r; content_coding := content_coding r;
     media_type := media_type r; charset := charset r; inflates := inflates r;
     body_size := body_size r; body_text := body_text r |}.

(** The request with a body of the given text, declared
    [application/json] in the given charset and framed by its length. *)
Definition with_json (cs : option string) (text : string) (r : Request)
  : Request :=
  {| method := method r; path := path r; query := query r;
     other_headers := other_headers r; conditional := conditional r;
     framing := ContentLength; content_coding := None;
     media_type := Some "application/json"%string; charset := cs;
     inflates := true; body_size := N.of_nat (String.length text); body_text := Some text |}.

(** The request sent again with [If-None-Match: *], which every answer
    with an [ETag] satisfies. *)
Definition if_none_match_any (r : Request) : Request :=
  {| method := method r; path := path r; query := query r;
     other_headers := other_headers r;
     conditional := Some (fun _ => true);
     framing := framing r; content_coding := content_coding r;
     media_type := media_type r; charset := charset r; inflates := inflates r;
     body_size := body_size r; body_text := body_text r |}.

(** The request with its body in a charset for which iconv-lite has no
    decoder, [utf-32] for one. *)
Definition undecodable (cs : string) (r : Request) : Request :=
  {| method := method r; path := path r; query := query r;
     other_headers := other_headers r; conditional := conditional r;
     framing := framing r; content_coding := content_coding r;
     media_type := media_type r; charset := Some cs; inflates := inflates r;
     body_size := body_size r; body_text := None |}.

Definition noon : Clock :=
  {| wall_ms := 1709210096789; hrtime_ns := 7000000000 |}.

Definition proc : Process := boot ∅ {| wall_ms := 1709210091789; hrtime_ns := 2000000000 |}.

Definition later : Clock :=
  {| wall_ms := 1709210097001; hrtime_ns := 7212000000 |}.

(** A reading taken after [later] on the monotonic clock, the wall clock
    having been set back by a second in between. *)
Definition stepped_back : Clock :=
  {| wall_ms := 1709210096001; hrtime_ns := 7217000000 |}.


(** A request with a query string, headers and a JSON body. *)
Definition noisy : Request :=
  {| method := GET; path := "/"; query := "a=1&b=2";
     other_headers := [("x-request-id"%string, "42"%string)];
     conditional := None; framing := ContentLength; content_coding := None;
     media_type := Some "application/json"%string;
     charset := Some "utf-8"%string; inflates := true;
     body_size := 13; body_text := Some (json "{'k': [1, 2]}") |}.

(** A [GET /health] with a query string, other headers and a body that
    is not declared [application/json]. *)
Definition busy : Request :=
  {| method := GET; path := "/Health/"; query := "verbose=1";
     other_headers := [("accept"%string, "*/*"%string)];
     conditional := None; framing := Chunked; content_coding := None;
     media_type := Some "text/plain"%string; charset := None;
     inflates := true; body_size := 5; body_text := Some "{bad}"%string |}.

End Samples.

(** ** The start-up line of [index.js] *)

Module Startup.
Import Runtime App.

(** The decimal digits of a natural number, most significant first, put in
    front of [acc]. *)
Fixpoint digits_of (fuel : nat) (n : Z) (acc : list ascii) : list ascii :=
  match fuel with
  | O => acc
  | S f =>
      let acc' := JSDate.digit_char (n mod 10) :: acc in
      if n <? 10 then acc' else digits_of f (n / 10) acc'
  end.

Definition to_decimal (n : Z) : string :=
  string_of_list_ascii (digits_of (S (Z.to_nat (Z.log2 n))) n []).

(** What a template literal makes of a value: an integer is written in
    decimal, a string is taken as it is. *)
Definition ToString (v : JSValue) : string :=
  match v with
  | JSNum n => if n <? 0 then String "-" (to_decimal (- n)) else to_decimal n
  | JSStr s => s
  end.

(** [console.log(`Server is running on port ${PORT}`)], the line the
    callback of [app.listen] writes. *)
Definition startup_message (e : gmap string string) : string :=
  ("Server is running on port " ++ ToString (PORT e))%string.

End Startup.

(** Requests that differ from a given one in one part. *)
Module Edit.
Import Express.

Definition with_path (p : string) (r : Request) : Request :=
  {| method := method r; path := p; query := query r;
     other_headers := other_headers r; conditional := conditional r;
     framing := framing r; content_coding := content_coding r;
     media_type := media_type r; charset := charset r; inflates := inflates r;
     body_size := body_size r; body_text := body_text r |}.

Definition with_method (m : Method) (r : Request) : Request :=
  {| method := m; path := path r; query := query r;
     other_headers := other_headers r; conditional := conditional r;
     framing := framing r; content_coding := content_coding r;
     media_type := media_type r; charset := charset r; inflates := inflates r;
     body_size := body_size r; body_text := body_text r |}.

End Edit.

(** The instants whose year has four digits, 0000 to 9999. *)
Module Timestamp.

Definition first_ms : Z := -62167219200000.
Definition last_ms : Z := 253402300799999.

Definition four_digit_year (t : Z) : bool :=
  (first_ms <=? t) && (t <=? last_ms).

(** The order of [String.compare], on lists of characters. *)
Fixpoint compare_chars (a b : list ascii) : comparison :=
  match a, b with
  | [], [] => Eq
  | [], _ :: _ => Lt
  | _ :: _, [] => Gt
  | x :: a', y :: b' =>
      match Ascii.compare x y with
      | Eq => compare_chars a' b'
      | ne => ne
      end
  end.

End Timestamp.

(** * Worked examples *)

Example iso_epoch :
  JSDate.toISOString (JSDate.TimeClip 0) = Some "1970-01-01T00:00:00.000Z"%string.
Proof. reflexivity. Qed.

Example iso_billion :
  JSDate.toISOString (JSDate.TimeClip 1000000000000)
  = Some "2001-09-09T01:46:40.000Z"%string.
Proof. reflexivity. Qed.

Example iso_before_epoch :
  JSDate.toISOString (JSDate.TimeClip (-1)) = Some "1969-12-31T23:59:59.999Z"%string.
Proof. reflexivity. Qed.

Example iso_leap_day :
  JSDate.toISOString (JSDate.TimeClip 1709210096789)
  = Some "2024-02-29T12:34:56.789Z"%string.
Proof. reflexivity. Qed.

Example iso_max :
  JSDate.toISOString (JSDate.TimeClip 8640000000000000)
  = Some "+275760-09-13T00:00:00.000Z"%string.
Proof. reflexivity. Qed.

Example iso_min :
  JSDate.toISOString (JSDate.TimeClip (-8640000000000000))
  = Some "-271821-04-20T00:00:00.000Z"%string.
Proof. reflexivity. Qed.

Example iso_out_of_range :
  JSDate.toISOString (JSDate.TimeClip 8640000000000001) = None.
Proof. reflexivity. Qed.

Example parse_leap_day :
  JSDate.parseISO "2024-02-29T12:34:56.789Z" = Some 1709210096789.
Proof. reflexivity. Qed.

Example parse_bad_day :
  JSDate.parseISO "2023-02-29T12:34:56.789Z" = None.
Proof. reflexivity. Qed.

Example json_ok_object :
  JSON.wellformed
    (Samples.json "{'a': [1, -2.5e3, true, null, 'x\n\u00e9'], 'b': {}}") = true.
Proof. reflexivity. Qed.

Example json_ok_scalar : JSON.wellformed " 42 " = true.
Proof. reflexivity. Qed.

Example json_bad_unclosed : JSON.wellformed "{bad" = false.
Proof. reflexivity. Qed.

Example json_bad_trailing_comma : JSON.wellformed "[1,2,]" = false.
Proof. reflexivity. Qed.

Example json_bad_leading_zero : JSON.wellformed "[01]" = false.
Proof. reflexivity. Qed.

Example json_bad_empty : JSON.wellformed "" = false.
Proof. reflexivity. Qed.

Example json_bad_two_values : JSON.wellformed "{} {}" = false.
Proof. reflexivity. Qed.

Example json_ok_nested : JSON.wellformed (Samples.json "[[[[{'a':[[1]]}]]],[],{}]") = true.
Proof. reflexivity. Qed.

Example json_bad_escape : JSON.wellformed (Samples.json "['\x41']") = false.
Proof. reflexivity. Qed.

Example json_bad_key : JSON.wellformed "{a: 1}" = false.
Proof. reflexivity. Qed.

(** The two tests of [index.test.js], with the full answers. *)
Example sample_root :
  fst (App.serve (Samples.get "/") Samples.noon Samples.proc)
  = {| Express.status := 200;
       Express.body := Express.JsonBody (JSON.JObject
         [("message"%string, JSON.JString "Welcome to Node.js Demo App!");
          ("status"%string, JSON.JString "success");
          ("timestamp"%string, JSON.JString "2024-02-29T12:34:56.789Z")]) |}.
Proof. reflexivity. Qed.

Example sample_health :
  fst (App.serve (Samples.get "/health") Samples.noon Samples.proc)
  = {| Express.status := 200;
       Express.body := Express.JsonBody (JSON.JObject
         [("status"%string, JSON.JString "healthy");
          ("uptime"%string, JSON.JNumber (5000000000 # 1000000000))]) |}.
Proof. reflexivity. Qed.

Example sample_missing :
  fst (App.serve (Samples.get "/nonexistent") Samples.noon Samples.proc)
  = {| Express.status := 404;
       Express.body := Express.NotFoundPage Express.GET "/nonexistent" |}.
Proof. reflexivity. Qed.

Example sample_if_none_match :
  fst (App.serve (Samples.if_none_match_any (Samples.get "/health"))
         Samples.noon Samples.proc)
  = {| Express.status := 304; Express.body := Express.NoBody |}.
Proof. reflexivity. Qed.

Example sample_head_root :
  fst (App.serve (Samples.with_method Express.HEAD (Samples.get "/"))
         Samples.noon Samples.proc)
  = {| Express.status := 200; Express.body := Express.NoBody |}.
Proof. reflexivity. Qed.

Example sample_options_health :
  fst (App.serve (Samples.with_method Express.OPTIONS (Samples.get "/health"))
         Samples.noon Samples.proc)
  = {| Express.status := 200; Express.body := Express.TextBody "GET,HEAD" |}.
Proof. reflexivity. Qed.

Example sample_post_root :
  Express.status (fst (App.serve (Samples.with_method Express.POST (Samples.get "/"))
                         Samples.noon Samples.proc)) = 404.
Proof. reflexivity. Qed.

Example sample_trailing_slash :
  Express.status (fst (App.serve (Samples.get "/Health/") Samples.noon Samples.proc))
  = 200.
Proof. reflexivity. Qed.

Example sample_malformed_body :
  Express.status (fst (App.serve (Samples.with_json None "{bad" (Samples.get "/"))
                         Samples.noon Samples.proc)) = 400.
Proof. reflexivity. Qed.

Example sample_empty_body :
  Express.status (fst (App.serve (Samples.with_json None "" (Samples.get "/"))
                         Samples.noon Samples.proc)) = 200.
Proof. reflexivity. Qed.

Example sample_charset_without_decoder :
  Express.status
    (fst (App.serve (Samples.undecodable "utf-32"
                       (Samples.with_json None (Samples.json "{}")
                          (Samples.get "/")))
            Samples.noon Samples.proc)) = 415.
Proof. reflexivity. Qed.

Example sample_empty_charset :
  Express.status
    (fst (App.serve (Samples.with_json (Some ""%string) "{bad" (Samples.get "/"))
            Samples.noon Samples.proc)) = 400.
Proof. reflexivity. Qed.

Example sample_scalar_body :
  Express.status (fst (App.serve (Samples.with_json None "42" (Samples.get "/"))
                         Samples.noon Samples.proc)) = 400.
Proof. reflexivity. Qed.

Example sample_port_unset : App.listen_port ∅ = Some 3000.
Proof. reflexivity. Qed.

Example sample_port_set : App.listen_port {[ "PORT"%string := "8080"%string ]} = Some 8080.
Proof. vm_compute. reflexivity. Qed.

Example sample_port_zero : App.listen_port {[ "PORT"%string := "0"%string ]} = None.
Proof. vm_compute. reflexivity. Qed.

Example sample_port_text : App.PORT {[ "PORT"%string := "abc"%string ]} = Runtime.JSStr "abc".
Proof. vm_compute. reflexivity. Qed.

Example sample_oversize_body :
  let text := N.iter 102401 (String "{") EmptyString in
  JSON.wellformed text = false /\
  Express.status (fst (App.serve (Samples.with_json None text (Samples.get "/"))
                         Samples.noon Samples.proc)) = 413.
Proof. vm_compute. split; reflexivity. Qed.

Example sample_invalid_clock :
  Express.status (fst (App.serve (Samples.get "/")
                         {| Runtime.wall_ms := 8640000000000001;
                            Runtime.hrtime_ns := 0 |} Samples.proc)) = 500.
Proof. reflexivity. Qed.

Example sample_startup_default :
  Startup.startup_message ∅ = "Server is running on port 3000"%string.
Proof. reflexivity. Qed.

Example sample_startup_set :
  Startup.startup_message {[ "PORT"%string := "8080"%string ]}
  = "Server is running on port 8080"%string.
Proof. vm_compute. reflexivity. Qed.

Example sample_to_decimal :
  Startup.to_decimal 0 = "0"%string /\ Startup.to_decimal 65535 = "65535"%string
  /\ Startup.to_decimal 1000 = "1000"%string.
Proof. repeat split; reflexivity. Qed.

Example sample_year_bounds :
  JSDate.toISOString (JSDate.TimeClip Timestamp.first_ms)
  = Some "0000-01-01T00:00:00.000Z"%string /\
  JSDate.toISOString (JSDate.TimeClip Timestamp.last_ms)
  = Some "9999-12-31T23:59:59.999Z"%string /\
  JSDate.toISOString (JSDate.TimeClip (Timestamp.last_ms + 1))
  = Some "+010000-01-01T00:00:00.000Z"%string /\
  JSDate.toISOString (JSDate.TimeClip (Timestamp.first_ms - 1))
  = Some "-000001-12-31T23:59:59.999Z"%string.
Proof. repeat split; reflexivity. Qed.

(** * Theorems *)

Module JSDateFacts.
Import JSDate.

Lemma yoe_range doe :
  0 <= doe < daysPerEra -> 0 <= yoe_of_doe doe <= 399.
Proof.
  unfold daysPerEra, yoe_of_doe. intros.
  (Z.div_mod_to_equations; lia).
Qed.

Lemma doy_range doe :
  0 <= doe < daysPerEra -> 0 <= doy_of doe (yoe_of_doe doe) <= 365.
Proof.
  unfold daysPerEra, doy_of, yoe_of_doe. intros.
  (Z.div_mod_to_equations; lia).
Qed.

(** The last day of a March-based year is 29 February of a leap year. *)
Lemma doy_leap doe :
  0 <= doe < daysPerEra ->
  doy_of doe (yoe_of_doe doe) = 365 ->
  is_leap (yoe_of_doe doe + 1) = true.
Proof.
  unfold daysPerEra, doy_of, yoe_of_doe, is_leap. intros H E.
  rewrite andb_true_iff, orb_true_iff, negb_true_iff, !Z.eqb_eq, Z.eqb_neq.
  (Z.div_mod_to_equations; lia).
Qed.

Lemma mp_range doy : 0 <= doy <= 365 -> 0 <= mp_of_doy doy <= 11.
Proof. unfold mp_of_doy. intros. Z.div_mod_to_equations; lia. Qed.

Lemma is_leap_era y era : is_leap (y + era * 400) = is_leap y.
Proof.
  unfold is_leap.
  replace (y + era * 400) with (y + (era * 100) * 4) at 1 by lia.
  replace (y + era * 400) with (y + (era * 4) * 100) at 1 by lia.
  now rewrite !Z.mod_add by lia.
Qed.

Lemma civil_fields z y m d :
  civil_from_days z = (y, m, d) ->
  1 <= m <= 12 /\ 1 <= d <= days_in_month y m /\ days_from_civil y m d = z.
Proof.
  unfold civil_from_days.
  set (z' := z + epochShift).
  assert (Hdoe : 0 <= z' mod daysPerEra < daysPerEra)
    by (apply Z.mod_pos_bound; reflexivity).
  pose proof (Z.div_mod z' daysPerEra ltac:(discriminate)) as Hz'.
  set (era := z' / daysPerEra) in *. set (doe := z' mod daysPerEra) in *.
  pose proof (yoe_range doe Hdoe) as Hyoe.
  pose proof (doy_range doe Hdoe) as Hdoy.
  pose proof (doy_leap doe Hdoe) as Hleap.
  pose proof (mp_range _ Hdoy) as Hmp.
  assert (Hdoy' : doy_of doe (yoe_of_doe doe)
                  = doe - (365 * yoe_of_doe doe + yoe_of_doe doe / 4
                           - yoe_of_doe doe / 100)) by reflexivity.
  set (yoe := yoe_of_doe doe) in *. set (doy := doy_of doe yoe) in *.
  assert (Hmp' : mp_of_doy doy = (5 * doy + 2) / 153) by reflexivity.
  set (mp := mp_of_doy doy) in *.
  intro E. injection E as Ey Em Ed.
  unfold month_of_mp in *.
  assert (Hm : 1 <= m <= 12) by (destruct (mp <? 10) eqn:C; lia).
  assert (Hmp2 : (if 2 <? m then m - 3 else m + 9) = mp)
    by (destruct (mp <? 10) eqn:C; destruct (2 <? m) eqn:C2; lia).
  assert (Hy : (if m <=? 2 then y - 1 else y) = yoe + era * 400)
    by (rewrite Em in Ey; destruct (m <=? 2) eqn:C2; lia).
  split; [exact Hm|]. split.
  - split.
    + (subst d; Z.div_mod_to_equations; lia).
    + unfold days_in_month.
      destruct (m =? 2) eqn:M2.
      * assert (Hy2 : y = yoe + 1 + era * 400)
          by (destruct (m <=? 2) eqn:C; lia).
        rewrite Hy2, is_leap_era.
        assert (mp = 11) by (destruct (mp <? 10) eqn:C; lia).
        destruct (is_leap (yoe + 1)) eqn:L.
        -- (subst d; Z.div_mod_to_equations; lia).
        -- assert (doy <> 365) by (intro A; apply Hleap in A; congruence).
           (subst d; Z.div_mod_to_equations; lia).
      * destruct ((m =? 4) || (m =? 6) || (m =? 9) || (m =? 11)) eqn:M30.
        -- rewrite !orb_true_iff, !Z.eqb_eq in M30.
           (subst d; destruct (mp <? 10) eqn:C; Z.div_mod_to_equations; lia).
        -- (subst d; destruct (mp <? 10) eqn:C; Z.div_mod_to_equations; lia).
  - unfold days_from_civil. rewrite Hy, Hmp2.
    replace ((yoe + era * 400) / 400) with era
      by (Z.div_mod_to_equations; lia).
    replace ((yoe + era * 400) mod 400) with yoe
      by (Z.div_mod_to_equations; lia).
    subst d z'. (Z.div_mod_to_equations; lia).
Qed.

(** *** Agreement with the calendar of ECMAScript *)

Lemma month_cases m :
  1 <= m <= 12 ->
  m = 1 \/ m = 2 \/ m = 3 \/ m = 4 \/ m = 5 \/ m = 6 \/ m = 7 \/ m = 8 \/ m = 9
  \/ m = 10 \/ m = 11 \/ m = 12.
Proof. lia. Qed.

Ltac each_month m H :=
  destruct (month_cases m H)
    as [?|[?|[?|[?|[?|[?|[?|[?|[?|[?|[?|?]]]]]]]]]]]; subst m.

Lemma leap_cases y :
  (is_leap y = true /\ y mod 4 = 0 /\ (y mod 100 <> 0 \/ y mod 400 = 0)) \/
  (is_leap y = false /\ (y mod 4 <> 0 \/ (y mod 100 = 0 /\ y mod 400 <> 0))).
Proof.
  unfold is_leap.
  destruct (Z.eqb_spec (y mod 4) 0), (Z.eqb_spec (y mod 100) 0),
    (Z.eqb_spec (y mod 400) 0); cbn; tauto.
Qed.

Ltac eval_month_tests :=
  repeat match goal with
    | |- context [nth ?n ?l 0] =>
        let v := eval cbv in (nth n l 0) in change (nth n l 0) with v
    | |- context [Z.leb (Zpos ?a) (Zpos ?b)] =>
        let v := eval cbv in (Z.leb (Zpos a) (Zpos b)) in
        change (Z.leb (Zpos a) (Zpos b)) with v
    | |- context [Z.ltb (Zpos ?a) (Zpos ?b)] =>
        let v := eval cbv in (Z.ltb (Zpos a) (Zpos b)) in
        change (Z.ltb (Zpos a) (Zpos b)) with v
    | |- context [Z.eqb (Zpos ?a) (Zpos ?b)] =>
        let v := eval cbv in (Z.eqb (Zpos a) (Zpos b)) in
        change (Z.eqb (Zpos a) (Zpos b)) with v
    end;
  cbv iota; cbn [andb orb].

(** A date lies as many days after the start of its year as the months
    before it and its day of the month say. *)
Lemma days_from_civil_ecma y m d :
  1 <= m <= 12 ->
  days_from_civil y m d = DayFromYear y + days_before_month y m + d - 1.
Proof.
  intro Hm.
  unfold days_from_civil, DayFromYear, days_before_month, daysPerEra, epochShift.
  destruct (leap_cases y) as [(-> & L)|(-> & L)]; each_month m Hm;
    eval_month_tests; (Z.div_mod_to_equations; lia).
Qed.

Lemma DayFromYear_succ y : DayFromYear (y + 1) = DayFromYear y + DaysInYear y.
Proof.
  unfold DayFromYear, DaysInYear.
  destruct (leap_cases y) as [(-> & L)|(-> & L)];
    (Z.div_mod_to_equations; lia).
Qed.

Lemma day_within_year y m d :
  1 <= m <= 12 -> 1 <= d <= days_in_month y m ->
  0 <= days_before_month y m + d - 1 < DaysInYear y.
Proof.
  intros Hm. unfold days_in_month, days_before_month, DaysInYear.
  destruct (is_leap y); each_month m Hm; eval_month_tests; lia.
Qed.

(** The year, month and day printed for a day number are those of
    [YearFromTime], [MonthFromTime] and [DateFromTime]. *)
Lemma civil_from_days_ecma z y m d :
  civil_from_days z = (y, m, d) ->
  DayFromYear y <= z < DayFromYear (y + 1) /\
  1 <= m <= 12 /\ 1 <= d <= days_in_month y m /\
  z - DayFromYear y = days_before_month y m + d - 1.
Proof.
  intro E. destruct (civil_fields _ _ _ _ E) as (Hm & Hd & R).
  rewrite days_from_civil_ecma in R by exact Hm.
  pose proof (day_within_year y m d Hm Hd).
  rewrite DayFromYear_succ. lia.
Qed.

(** The hour, minute, second and millisecond printed are the parts of the
    time within the day. *)
Lemma time_fields t :
  0 <= HourFromTime t <= 23 /\ 0 <= MinFromTime t <= 59 /\
  0 <= SecFromTime t <= 59 /\ 0 <= msFromTime t <= 999 /\
  TimeWithinDay t
  = HourFromTime t * 3600000 + MinFromTime t * 60000
    + SecFromTime t * 1000 + msFromTime t.
Proof.
  unfold HourFromTime, MinFromTime, SecFromTime, msFromTime, TimeWithinDay,
    msPerDay.
  Z.div_mod_to_equations; lia.
Qed.

(** *** Decimal fields read back *)

Lemma digit_cases d :
  0 <= d <= 9 ->
  d = 0 \/ d = 1 \/ d = 2 \/ d = 3 \/ d = 4 \/ d = 5 \/ d = 6 \/ d = 7 \/ d = 8 \/ d = 9.
Proof. lia. Qed.

Ltac each_digit d H :=
  destruct (digit_cases d H) as [?|[?|[?|[?|[?|[?|[?|[?|[?|?]]]]]]]]]; subst d.

Lemma digit_value_char d : 0 <= d <= 9 -> digit_value (digit_char d) = Some d.
Proof. intro H. each_digit d H; reflexivity. Qed.

Lemma digit_char_not_sign d :
  0 <= d <= 9 ->
  Ascii.eqb (digit_char d) "+" = false /\ Ascii.eqb (digit_char d) "-" = false.
Proof. intro H. each_digit d H; split; reflexivity. Qed.

Lemma read_digits_app k j : forall acc cs,
  read_digits (k + j) acc cs
  = match read_digits k acc cs with
    | Some (a, r) => read_digits j a r
    | None => None
    end.
Proof.
  induction k as [|k IH]; intros acc cs; [reflexivity|].
  cbn [Nat.add read_digits].
  destruct cs as [|c cs]; [reflexivity|].
  destruct (digit_value c); [apply IH | reflexivity].
Qed.

Lemma read_pad k : forall n acc rest,
  0 <= n < 10 ^ Z.of_nat k ->
  read_digits k acc (pad k n ++ rest) = Some (acc * 10 ^ Z.of_nat k + n, rest).
Proof.
  induction k as [|k IH]; intros n acc rest Hn.
  - cbn in *. f_equal. f_equal. lia.
  - rewrite Nat2Z.inj_succ, Z.pow_succ_r in * by lia.
    cbn [pad]. rewrite <- app_assoc.
    replace (S k) with (k + 1)%nat by lia.
    rewrite read_digits_app, IH by (Z.div_mod_to_equations; nia).
    cbn [read_digits app].
    rewrite digit_value_char by (Z.div_mod_to_equations; lia).
    f_equal. f_equal. Z.div_mod_to_equations; nia.
Qed.

Lemma read_field k n rest :
  0 <= n < 10 ^ Z.of_nat k ->
  read_digits k 0 (pad k n ++ rest) = Some (n, rest).
Proof. intro H. rewrite read_pad by exact H. reflexivity. Qed.

Lemma read_year_field y rest :
  -999999 <= y <= 999999 ->
  read_year (year_field y ++ rest) = Some (y, rest).
Proof.
  intro Hy. unfold year_field.
  destruct ((0 <=? y) && (y <=? 9999)) eqn:C.
  - apply andb_true_iff in C as [C1 C2].
    pose proof (read_field 4 y rest ltac:(cbn; lia)) as R.
    cbn [pad] in *. cbn [app] in *.
    unfold read_year.
    destruct (digit_char_not_sign (y / 10 / 10 / 10 mod 10)
                ltac:(Z.div_mod_to_equations; lia)) as [-> ->].
    exact R.
  - destruct (y <? 0) eqn:N.
    + cbn [app read_year]. change (Ascii.eqb "-" "+") with false.
      change (Ascii.eqb "-" "-") with true. cbv iota.
      rewrite read_field by (cbn; lia).
      replace (- y =? 0) with false by (symmetry; apply Z.eqb_neq; lia).
      f_equal. f_equal. lia.
    + cbn [app read_year]. change (Ascii.eqb "+" "+") with true. cbv iota.
      apply read_field. cbn; lia.
Qed.

(** *** The year of a representable instant *)

Lemma civil_year_range t y m d :
  valid_time t = true ->
  civil_from_days (Day t) = (y, m, d) ->
  -999999 <= y <= 999999.
Proof.
  unfold valid_time, maxTime. intros V E.
  apply andb_true_iff in V as [V1 V2].
  destruct (civil_fields _ _ _ _ E) as (Hm & Hd & R).
  assert (HD : -100000000 <= Day t <= 100000000)
    by (unfold Day, msPerDay; Z.div_mod_to_equations; lia).
  assert (Hd31 : d <= 31).
  { unfold days_in_month in Hd.
    destruct (m =? 2); [destruct (is_leap y)|destruct (_ || _)]; lia. }
  unfold days_from_civil, daysPerEra, epochShift in R.
  destruct (m <=? 2) eqn:C1; destruct (2 <? m) eqn:C2;
    Z.div_mod_to_equations; lia.
Qed.

(** *** [parseISO] inverts [toISOString] *)

Lemma parse_iso_chars t :
  valid_time t = true -> parse_chars (iso_chars t) = Some t.
Proof.
  intro V. unfold iso_chars.
  destruct (civil_from_days (Day t)) as [[y m] d] eqn:E.
  pose proof (civil_year_range _ _ _ _ V E) as Hy.
  destruct (civil_fields _ _ _ _ E) as (Hm & Hd & R).
  assert (Hd31 : d <= 31).
  { unfold days_in_month in Hd.
    destruct (m =? 2); [destruct (is_leap y)|destruct (_ || _)]; lia. }
  destruct (time_fields t) as (Hh & Hmi & Hs & Hms & Htw).
  pose proof (Z.div_mod t msPerDay ltac:(discriminate)) as Ht.
  fold (Day t) (TimeWithinDay t) in Ht.
  unfold parse_chars.
  rewrite read_year_field by exact Hy. cbn [expect].
  change (Ascii.eqb "-" "-") with true. cbv iota.
  rewrite read_field by (cbn; lia). cbn [expect].
  change (Ascii.eqb "-" "-") with true. cbv iota.
  rewrite read_field by (cbn; lia). cbn [expect].
  change (Ascii.eqb "T" "T") with true. cbv iota.
  rewrite read_field by (cbn; lia). cbn [expect].
  change (Ascii.eqb ":" ":") with true. cbv iota.
  rewrite read_field by (cbn; lia). cbn [expect].
  change (Ascii.eqb ":" ":") with true. cbv iota.
  rewrite read_field by (cbn; lia). cbn [expect].
  change (Ascii.eqb "." ".") with true. cbv iota.
  rewrite read_field by (cbn; lia).
  change (Ascii.eqb "Z" "Z") with true.
  replace (1 <=? m) with true by (symmetry; apply Z.leb_le; lia).
  replace (m <=? 12) with true by (symmetry; apply Z.leb_le; lia).
  replace (1 <=? d) with true by (symmetry; apply Z.leb_le; lia).
  replace (d <=? days_in_month y m) with true by (symmetry; apply Z.leb_le; lia).
  replace (HourFromTime t <=? 23) with true by (symmetry; apply Z.leb_le; lia).
  replace (MinFromTime t <=? 59) with true by (symmetry; apply Z.leb_le; lia).
  replace (SecFromTime t <=? 59) with true by (symmetry; apply Z.leb_le; lia).
  cbn [andb]. rewrite R.
  replace (Day t * msPerDay + HourFromTime t * 3600000 + MinFromTime t * 60000
           + SecFromTime t * 1000 + msFromTime t) with t by lia.
  unfold TimeClip. now rewrite V.
Qed.

Lemma parse_toISOString t s :
  toISOString (TimeClip t) = Some s -> parseISO s = Some t.
Proof.
  unfold TimeClip, toISOString, parseISO.
  destruct (valid_time t) eqn:V; [|discriminate].
  intros [= <-]. rewrite list_ascii_of_string_of_list_ascii.
  now apply parse_iso_chars.
Qed.

End JSDateFacts.

(** ** Facts about the router and the handlers *)

Module RouterFacts.
Import Runtime Express App JSON.

(** A handler the router invokes is one that was registered. *)
Lemma route_invokes stack : forall allow req h,
  route stack allow req = Invoke h ->
  exists m pattern, In (Route m pattern h) stack.
Proof.
  induction stack as [|l stack IH]; intros allow req h E; cbn [route] in E.
  - destruct (method req), allow; discriminate.
  - destruct l as [mw|m pattern h'].
    + destruct (mw req); [|discriminate].
      destruct (IH _ _ _ E) as (m & pat & I). exists m, pat. now right.
    + destruct (path_matches pattern (path req)).
      * destruct (handles_method m (method req)).
        -- injection E as <-. exists m, pattern. now left.
        -- assert (exists a, route stack a req = Invoke h) as [a E']
             by (destruct (method req); eauto).
           destruct (IH _ _ _ E') as (m' & pat & I). exists m', pat. now right.
      * destruct (IH _ _ _ E) as (m' & pat & I). exists m', pat. now right.
Qed.

(** A request the first middleware refuses goes no further. *)
Lemma route_rejected mw stack allow req code :
  mw req = Fail code -> route (Use mw :: stack) allow req = Rejected code.
Proof. intro E. cbn [route]. now rewrite E. Qed.

Lemma app_handlers h m pattern :
  In (Route m pattern h) app -> h = root_handler \/ h = health_handler.
Proof.
  unfold app. cbn [In]. intros [E|[E|[E|[]]]]; try discriminate;
    injection E as _ _ <-; auto.
Qed.

Lemma root_handler_eq req c p :
  root_handler req c p
  = if JSDate.valid_time (wall_ms c)
    then (inr (welcome (iso_string (wall_ms c))), p)
    else (inl RangeError, p).
Proof.
  unfold root_handler, new_Date, bind, read_clock, ret, Date_toISOString,
    JSDate.TimeClip.
  destruct (JSDate.valid_time (wall_ms c)); reflexivity.
Qed.

Lemma health_handler_eq req c p :
  health_handler req c p
  = (inr (healthy ((hrtime_ns c - start_time p) # nsPerSec)), p).
Proof. reflexivity. Qed.

Lemma handler_keeps_process h req c p :
  h = root_handler \/ h = health_handler -> snd (h req c p) = p.
Proof.
  intros [->| ->].
  - rewrite root_handler_eq. now destruct (JSDate.valid_time _).
  - reflexivity.
Qed.

Lemma serve_keeps_process req c p : snd (serve req c p) = p.
Proof.
  unfold serve, handle.
  destruct (route app [] req) as [h|code|allow|] eqn:E; cbn [respond];
    try reflexivity.
  destruct (route_invokes _ _ _ _ E) as (m & pat & I).
  pose proof (handler_keeps_process h req c p (app_handlers _ _ _ I)) as K.
  destruct (h req c p) as [[e|r] p']; exact K.
Qed.

Lemma run_keeps_process trace : forall p, snd (run p trace) = p.
Proof.
  induction trace as [|[c req] rest IH]; intro p; [reflexivity|].
  cbn [run].
  pose proof (serve_keeps_process req c p) as K.
  destruct (serve req c p) as [r p1]. cbn [snd] in K. subst p1.
  specialize (IH p). destruct (run p rest) as [rs p2]. exact IH.
Qed.

(** The two patterns do not overlap. *)
Lemma path_root_not_health p :
  path_matches "/" p = true -> path_matches "/health" p = false.
Proof.
  unfold path_matches.
  change (ends_with_slash (lower "/")) with true.
  change (ends_with_slash (lower "/health")) with false.
  cbv iota. cbn [lower]. intro H.
  apply orb_true_iff in H as [H|H]; apply String.eqb_eq in H; rewrite H;
    reflexivity.
Qed.

(** Where the application routes a request the body parser lets through. *)
Lemma route_get_root req :
  json_parser req = Pass ->
  path_matches "/" (path req) = true ->
  handles_method GET (method req) = true ->
  route app [] req = Invoke root_handler.
Proof. intros J P M. unfold app. cbn [route]. now rewrite J, P, M. Qed.

Lemma route_get_health req :
  json_parser req = Pass ->
  path_matches "/health" (path req) = true ->
  handles_method GET (method req) = true ->
  route app [] req = Invoke health_handler.
Proof.
  intros J P M. unfold app. cbn [route]. rewrite J, P, M.
  destruct (path_matches "/" (path req)) eqn:R; [|reflexivity].
  apply path_root_not_health in R. congruence.
Qed.

Lemma route_parser_fail req code :
  json_parser req = Fail code -> route app [] req = Rejected code.
Proof. apply route_rejected. Qed.

(** The body parser passes on a request that has no body or whose body is
    not declared [application/json]. *)
Lemma json_parser_skips req :
  has_body req = false \/ is_json_type req = false -> json_parser req = Pass.
Proof.
  unfold json_parser. intros [-> | E]; [reflexivity|].
  rewrite E. now destruct (has_body req).
Qed.

Lemma status_for_method m r : status (for_method m r) = status r.
Proof. now destruct m. Qed.

(** Without validators a request is never fresh. *)
Lemma send_unconditional req r :
  conditional req = None -> send req r = for_method (method req) r.
Proof.
  intro E. unfold send, fresh. rewrite E.
  destruct (method req); try reflexivity; now rewrite andb_false_r.
Qed.

(** Two requests with the same method and the same validators are sent the
    same answer. *)
Lemma send_congr r1 r2 r :
  method r1 = method r2 -> conditional r1 = conditional r2 ->
  send r1 r = send r2 r.
Proof. unfold send, fresh. now intros -> ->. Qed.

End RouterFacts.

(** ** Properties of the service *)

Import Runtime Express App JSON RouterFacts.





(** C3. The [uptime] returned by [GET /health] at time [now] is [now] minus
    the process start time; the start time is the value taken from the
    clock at initialization and no request served since has written it; a
    request handled five seconds after the start gets an uptime of 5. *)
Theorem C3_uptime_since_start (e : gmap string string) (c0 now : Clock)
    (trace : list (Clock * Request)) (req : Request) :
  let p := snd (run (boot e c0) trace) in
  start_time p = hrtime_ns c0 /\
  (exists r, health_handler req now p = (inr r, p) /\
             uptime_of r = Some ((hrtime_ns now - hrtime_ns c0) # nsPerSec)) /\
  (forall wall, exists r up,
     health_handler req
       {| wall_ms := wall; hrtime_ns := hrtime_ns c0 + 5000000000 |} p
       = (inr r, p) /\
     uptime_of r = Some up /\ (up == 5)%Q).
Proof.
  cbv zeta. rewrite run_keeps_process. cbn [boot start_time].
  split; [reflexivity|]. split.
  - eexists. split; reflexivity.
  - intro wall. eexists. eexists. split; [reflexivity|].
    split; [reflexivity|]. cbn [hrtime_ns].
    unfold Qeq, nsPerSec. cbn [Qnum Qden inject_Z boot start_time]. lia.
Qed.

(** C4. Of two [GET /health] requests handled in one process lifetime, the
    later one (on the monotonic clock) does not get the smaller [uptime],
    whatever was served in between. *)
Theorem C4_uptime_monotone (p : Process) (req1 req2 : Request)
    (c1 c2 : Clock) (between : list (Clock * Request)) :
  hrtime_ns c1 <= hrtime_ns c2 ->
  exists r1 r2 u1 u2,
    health_handler req1 c1 p = (inr r1, p) /\
    health_handler req2 c2 (snd (run p between)) = (inr r2, p) /\
    uptime_of r1 = Some u1 /\ uptime_of r2 = Some u2 /\ (u1 <= u2)%Q.
Proof.
  intro H. rewrite run_keeps_process.
  do 4 eexists. repeat split; try reflexivity.
  unfold Qle, nsPerSec. cbn [Qnum Qden]. lia.
Qed.

Lemma C4_uptime_monotone_witness :
  hrtime_ns Samples.noon <= hrtime_ns Samples.later /\
  exists r1 r2 u1 u2,
    health_handler (Samples.get "/health") Samples.noon Samples.proc
      = (inr r1, Samples.proc) /\
    health_handler (Samples.get "/health") Samples.later
      (snd (run Samples.proc [(Samples.noon, Samples.get "/")]))
      = (inr r2, Samples.proc) /\
    uptime_of r1 = Some u1 /\ uptime_of r2 = Some u2 /\ (u1 <= u2)%Q.
Proof.
  assert (H : hrtime_ns Samples.noon <= hrtime_ns Samples.later)
    by (vm_compute; discriminate).
  split; [exact H|].
  apply (C4_uptime_monotone Samples.proc (Samples.get "/health")
           (Samples.get "/health") Samples.noon Samples.later
           [(Samples.noon, Samples.get "/")] H).
Defined.




(** C6, as stated, fails: with [PORT=abc], which is not a port number, the
    value handed to [listen] is the string "abc" and the server does not
    listen on port 3000. *)
Lemma C6_unparseable_port_counterexample :
  let e : gmap string string := {[ "PORT"%string := "abc"%string ]} in
  tcp_port (JSStr "abc") = None /\
  PORT e = JSStr "abc" /\
  listen_port e <> Some 3000.
Proof.
  cbv zeta. split; [reflexivity|]. split.
  - vm_compute. reflexivity.
  - vm_compute. discriminate.
Qed.

(** C6, amended.  One environment variable, [PORT], selects the port: in
    every environment in which it is unset or empty the service listens on
    port 3000, and so it does in any other environment with the same
    [PORT]. *)
Theorem C6_port_default (e : gmap string string) :
  e !! "PORT"%string = None \/ e !! "PORT"%string = Some ""%string ->
  PORT e = JSNum 3000 /\
  listen_port e = Some 3000 /\
  (forall e' : gmap string string,
     e' !! "PORT"%string = e !! "PORT"%string -> listen_port e' = Some 3000).
Proof.
  intros H.
  assert (P : PORT e = JSNum 3000)
    by (unfold PORT; destruct H as [-> | ->]; reflexivity).
  split; [exact P|]. split.
  - unfold listen_port. now rewrite P.
  - intros e' E. unfold listen_port. unfold PORT in *. now rewrite E, P.
Qed.

Lemma C6_port_default_witness :
  ((∅ : gmap string string) !! "PORT"%string = None \/
   (∅ : gmap string string) !! "PORT"%string = Some ""%string) /\
  PORT ∅ = JSNum 3000 /\
  listen_port ∅ = Some 3000 /\
  (forall e' : gmap string string,
     e' !! "PORT"%string = (∅ : gmap string string) !! "PORT"%string ->
     listen_port e' = Some 3000).
Proof.
  assert (H : (∅ : gmap string string) !! "PORT"%string = None \/
              (∅ : gmap string string) !! "PORT"%string = Some ""%string)
    by (left; reflexivity).
  split; [exact H|]. apply (C6_port_default ∅ H).
Defined.




(** C8, as stated, fails: when the wall clock is set back between two
    requests to [GET /], the second [timestamp] denotes an earlier instant
    than the first, though the second request is the later one. *)
Lemma C8_clock_set_back_counterexample :
  let first := fst (serve (Samples.get "/") Samples.later Samples.proc) in
  let second := fst (serve (Samples.get "/") Samples.stepped_back Samples.proc) in
  hrtime_ns Samples.later <= hrtime_ns Samples.stepped_back /\
  timestamp_of first = Some "2024-02-29T12:34:57.001Z"%string /\
  timestamp_of second = Some "2024-02-29T12:34:56.001Z"%string /\
  JSDate.parseISO "2024-02-29T12:34:57.001Z" = Some 1709210097001 /\
  JSDate.parseISO "2024-02-29T12:34:56.001Z" = Some 1709210096001 /\
  1709210096001 < 1709210097001.
Proof.
  cbv zeta. split; [vm_compute; discriminate|].
  repeat (split; [reflexivity|]). reflexivity.
Qed.

(** C8, amended.  A request without validators, served twice in succession
    at representable wall-clock times, gets two answers with the same
    status, the same fields and the same values except in [timestamp] and
    [uptime]; the second [uptime] is not smaller than the first; each
    [timestamp] denotes the wall-clock reading of its handling, so that the
    second is not earlier than the first when the wall clock was not set
    back in between.  (This holds for every such request, the [GET]
    requests to [/] and [/health] among them.) *)
Theorem C8_repeated_request (req : Request) (c1 c2 : Clock) (p : Process) :
  conditional req = None ->
  JSDate.valid_time (wall_ms c1) = true ->
  JSDate.valid_time (wall_ms c2) = true ->
  hrtime_ns c1 <= hrtime_ns c2 ->
  let first := serve req c1 p in
  let second := serve req c2 (snd first) in
  status (fst first) = status (fst second) /\
  option_map keys (json_of (fst first)) = option_map keys (json_of (fst second)) /\
  shape (fst first) = shape (fst second) /\
  (forall u1 u2,
     uptime_of (fst first) = Some u1 -> uptime_of (fst second) = Some u2 ->
     (u1 <= u2)%Q) /\
  (forall s1 s2,
     timestamp_of (fst first) = Some s1 -> timestamp_of (fst second) = Some s2 ->
     JSDate.parseISO s1 = Some (wall_ms c1) /\
     JSDate.parseISO s2 = Some (wall_ms c2) /\
     (wall_ms c1 <= wall_ms c2 ->
      exists t1 t2, JSDate.parseISO s1 = Some t1 /\
                    JSDate.parseISO s2 = Some t2 /\ t1 <= t2)).
Proof.
  intros U V1 V2 H. cbv zeta. rewrite serve_keeps_process.
  assert (P1 : JSDate.parseISO (iso_string (wall_ms c1)) = Some (wall_ms c1))
    by (apply JSDateFacts.parse_toISOString; unfold JSDate.TimeClip;
        now rewrite V1).
  assert (P2 : JSDate.parseISO (iso_string (wall_ms c2)) = Some (wall_ms c2))
    by (apply JSDateFacts.parse_toISOString; unfold JSDate.TimeClip;
        now rewrite V2).
  unfold serve, handle.
  destruct (route app [] req) as [h|code|allow|] eqn:E; cbn [respond fst].
  - destruct (route_invokes _ _ _ _ E) as (m & pat & I).
    destruct (app_handlers _ _ _ I) as [-> | ->].
    + rewrite !root_handler_eq, V1, V2. cbn [fst].
      rewrite !send_unconditional by exact U.
      split; [now rewrite !status_for_method|].
      destruct (method req); cbn [for_method];
        (split; [reflexivity|]); (split; [reflexivity|]);
        (split; [discriminate|]);
        try discriminate;
        intros s1 s2 [= <-] [= <-];
        (split; [exact P1|]); (split; [exact P2|]);
        intros W; exists (wall_ms c1), (wall_ms c2); auto.
    + rewrite !health_handler_eq. cbn [fst].
      rewrite !send_unconditional by exact U.
      split; [now rewrite !status_for_method|].
      destruct (method req); cbn [for_method];
        (split; [reflexivity|]); (split; [reflexivity|]);
        (split; [|discriminate]);
        try discriminate;
        intros u1 u2 [= <-] [= <-]; unfold Qle, nsPerSec; cbn [Qnum Qden]; lia.
  - split; [reflexivity|]. split; [reflexivity|]. split; [reflexivity|].
    split; intros ? ? A; exfalso; revert A; destruct (method req); discriminate.
  - split; [reflexivity|]. split; [reflexivity|]. split; [reflexivity|].
    split; discriminate.
  - split; [reflexivity|]. split; [reflexivity|]. split; [reflexivity|].
    split; intros ? ? A; exfalso; revert A; destruct (method req); discriminate.
Qed.

Lemma C8_repeated_request_witness :
  conditional (Samples.get "/") = None /\
  JSDate.valid_time (wall_ms Samples.noon) = true /\
  JSDate.valid_time (wall_ms Samples.later) = true /\
  hrtime_ns Samples.noon <= hrtime_ns Samples.later /\
  let first := serve (Samples.get "/") Samples.noon Samples.proc in
  let second := serve (Samples.get "/") Samples.later (snd first) in
  status (fst first) = status (fst second) /\
  option_map keys (json_of (fst first)) = option_map keys (json_of (fst second)) /\
  shape (fst first) = shape (fst second) /\
  (forall u1 u2,
     uptime_of (fst first) = Some u1 -> uptime_of (fst second) = Some u2 ->
     (u1 <= u2)%Q) /\
  (forall s1 s2,
     timestamp_of (fst first) = Some s1 -> timestamp_of (fst second) = Some s2 ->
     JSDate.parseISO s1 = Some (wall_ms Samples.noon) /\
     JSDate.parseISO s2 = Some (wall_ms Samples.later) /\
     (wall_ms Samples.noon <= wall_ms Samples.later ->
      exists t1 t2, JSDate.parseISO s1 = Some t1 /\
                    JSDate.parseISO s2 = Some t2 /\ t1 <= t2)).
Proof.
  assert (H : hrtime_ns Samples.noon <= hrtime_ns Samples.later)
    by (vm_compute; discriminate).
  split; [reflexivity|]. split; [reflexivity|]. split; [reflexivity|].
  split; [exact H|].
  apply (C8_repeated_request (Samples.get "/") Samples.noon Samples.later
           Samples.proc eq_refl eq_refl eq_refl H).
Defined.

(** C9. The two handlers always answer: whenever the wall clock shows a
    representable time, each returns a response and throws nothing; neither
    reads the request; and no request, served alone or in a sequence,
    changes the process state, the start time in particular. *)
Theorem C9_handlers_total (req : Request) (c : Clock) (p : Process) :
  JSDate.valid_time (wall_ms c) = true ->
  (exists r, root_handler req c p = (inr r, p)) /\
  (exists r, health_handler req c p = (inr r, p)) /\
  (forall req', root_handler req' c p = root_handler req c p /\
                health_handler req' c p = health_handler req c p) /\
  snd (serve req c p) = p /\
  (forall trace, snd (run p trace) = p /\
                 start_time (snd (run p trace)) = start_time p).
Proof.
  intro V. split; [|split; [|split; [|split]]].
  - rewrite root_handler_eq, V. eexists; reflexivity.
  - rewrite health_handler_eq. eexists; reflexivity.
  - intro req'. now rewrite !root_handler_eq, !health_handler_eq.
  - apply serve_keeps_process.
  - intro trace. now rewrite run_keeps_process.
Qed.

Lemma C9_handlers_total_witness :
  JSDate.valid_time (wall_ms Samples.noon) = true /\
  (exists r, root_handler Samples.noisy Samples.noon Samples.proc
             = (inr r, Samples.proc)) /\
  (exists r, health_handler Samples.noisy Samples.noon Samples.proc
             = (inr r, Samples.proc)) /\
  (forall req', root_handler req' Samples.noon Samples.proc
                = root_handler Samples.noisy Samples.noon Samples.proc /\
                health_handler req' Samples.noon Samples.proc
                = health_handler Samples.noisy Samples.noon Samples.proc) /\
  snd (serve Samples.noisy Samples.noon Samples.proc) = Samples.proc /\
  (forall trace, snd (run Samples.proc trace) = Samples.proc /\
                 start_time (snd (run Samples.proc trace))
                 = start_time Samples.proc).
Proof.
  split; [reflexivity|].
  apply (C9_handlers_total Samples.noisy Samples.noon Samples.proc).
  reflexivity.
Defined.

(** C10, as stated, fails: a [GET /] request whose body is declared
    [application/json] in a charset other than UTF and holds malformed JSON
    is refused with status 415, not 400. *)
Lemma C10_charset_counterexample :
  let req := Samples.with_json (Some "iso-8859-1"%string) "{bad" (Samples.get "/") in
  method req = GET /\ path req = "/"%string /\
  has_body req = true /\ is_json_type req = true /\
  body_text req = Some "{bad"%string /\
  JSON.wellformed "{bad" = false /\
  status (fst (serve req Samples.noon Samples.proc)) = 415 /\
  status (fst (serve req Samples.noon Samples.proc)) <> 400.
Proof.
  cbv zeta. repeat split; try reflexivity.
  vm_compute. discriminate.
Qed.

(** C10, amended.  Of the requests that carry a body declared
    [application/json]: one whose charset name begins with [utf-] (or is
    absent), whose content coding the parser reads, whose body inflates, is
    within the limit of 100kb and decodes under that charset to a text that
    is not empty and is malformed JSON, is refused with status 400, reaches
    no handler and leaves the process state as it was.  A charset name
    that does not begin with [utf-], a content coding the parser does not
    read, and a charset for which there is no decoder get 415, and a body
    over the limit gets 413, before any handler too; a body that decodes to
    the empty text passes the parser. *)
Theorem C10_malformed_json_rejected (req : Request) (c : Clock) (p : Process) :
  has_body req = true ->
  is_json_type req = true ->
  (forall text,
     charset_is_utf req = true -> coding_supported req = true ->
     (body_size req <= limit)%N -> payload_sound req = true ->
     body_text req = Some text -> text <> ""%string ->
     JSON.wellformed text = false ->
     json_parser req = Fail 400 /\
     route app [] req = Rejected 400 /\
     (forall h, route app [] req <> Invoke h) /\
     status (fst (serve req c p)) = 400 /\
     snd (serve req c p) = p) /\
  (charset_is_utf req = false \/ coding_supported req = false ->
   route app [] req = Rejected 415 /\ status (fst (serve req c p)) = 415) /\
  (charset_is_utf req = true -> coding_supported req = true ->
   (body_size req <= limit)%N -> body_text req = None ->
   route app [] req = Rejected 415 /\ status (fst (serve req c p)) = 415) /\
  (charset_is_utf req = true -> coding_supported req = true ->
   (limit < body_size req)%N ->
   length_known req = true \/ body_text req <> None ->
   route app [] req = Rejected 413 /\ status (fst (serve req c p)) = 413) /\
  (charset_is_utf req = true -> coding_supported req = true ->
   (body_size req <= limit)%N -> payload_sound req = true ->
   body_text req = Some ""%string ->
   json_parser req = Pass).
Proof.
  intros B T.
  assert (S : forall code, json_parser req = Fail code ->
                route app [] req = Rejected code /\
                status (fst (serve req c p)) = code /\
                snd (serve req c p) = p).
  { intros code J. pose proof (route_parser_fail _ _ J) as R.
    split; [exact R|]. unfold serve, handle. rewrite R. cbn [respond fst snd].
    split; [now rewrite status_for_method|reflexivity]. }
  unfold json_parser in *. rewrite B, T in *. cbn [negb] in *.
  split; [|split; [|split; [|split]]].
  - intros text U C L Z D N W. rewrite U, C, D, Z in *. cbn [negb] in *.
    apply N.ltb_ge in L. rewrite L, andb_false_r in *.
    unfold parse_text in *.
    apply String.eqb_neq in N. rewrite N, W in *.
    assert (J : (if negb (strict_first text) then Fail 400 else Fail 400)
                = Fail 400) by now destruct (strict_first text).
    rewrite J in *. destruct (S 400 eq_refl) as (R & St & K).
    split; [reflexivity|]. split; [exact R|]. split; [congruence|].
    split; [exact St|exact K].
  - intros [U|C].
    + rewrite U in *. cbn [negb] in *.
      destruct (S 415 eq_refl) as (R & St & _). split; [exact R|exact St].
    + rewrite C in *.
      destruct (charset_is_utf req); cbn [negb] in *;
        destruct (S 415 eq_refl) as (R & St & _); split; assumption.
  - intros U C L D. rewrite U, C, D in *. cbn [negb] in *.
    apply N.ltb_ge in L. rewrite L, andb_false_r in *.
    destruct (S 415 eq_refl) as (R & St & _). split; [exact R|exact St].
  - intros U C L K. rewrite U, C in *. cbn [negb] in *.
    apply N.ltb_lt in L. rewrite L in *.
    destruct (length_known req) eqn:LK; cbn [andb] in *.
    + destruct (S 413 eq_refl) as (R & St & _). split; [exact R|exact St].
    + destruct K as [K|K]; [discriminate K|].
      destruct (body_text req) as [text|]; [|congruence].
      destruct (S 413 eq_refl) as (R & St & _). split; [exact R|exact St].
  - intros U C L Z D. rewrite U, C, D, Z. cbn [negb].
    apply N.ltb_ge in L. now rewrite L, andb_false_r.
Qed.

Lemma C10_malformed_json_rejected_witness :
  let req := Samples.with_json None "{bad" (Samples.get "/health") in
  has_body req = true /\
  is_json_type req = true /\
  charset_is_utf req = true /\
  coding_supported req = true /\
  (body_size req <= limit)%N /\
  payload_sound req = true /\
  body_text req = Some "{bad"%string /\
  JSON.wellformed "{bad" = false /\
  json_parser req = Fail 400 /\
  route app [] req = Rejected 400 /\
  (forall h, route app [] req <> Invoke h) /\
  status (fst (serve req Samples.noon Samples.proc)) = 400 /\
  snd (serve req Samples.noon Samples.proc) = Samples.proc.
Proof.
  cbv zeta.
  assert (L : (body_size (Samples.with_json None "{bad" (Samples.get "/health"))
               <= limit)%N) by (vm_compute; discriminate).
  assert (N : "{bad"%string <> ""%string) by discriminate.
  split; [reflexivity|]. split; [reflexivity|]. split; [reflexivity|].
  split; [reflexivity|]. split; [exact L|]. split; [reflexivity|].
  split; [reflexivity|]. split; [reflexivity|].
  apply (proj1 (C10_malformed_json_rejected
                  (Samples.with_json None "{bad" (Samples.get "/health"))
                  Samples.noon Samples.proc eq_refl eq_refl)
           "{bad"%string eq_refl eq_refl L eq_refl eq_refl N eq_refl).
Defined.

(** ** Further properties of the service *)

Module ServiceFacts.
Import Runtime Express App JSON RouterFacts.

(** The router looks at the verdict of the body parser, the method and the
    two path tests, and at nothing else. *)
Lemma route_app_congr r1 r2 :
  json_parser r1 = json_parser r2 ->
  method r1 = method r2 ->
  path_matches "/" (path r1) = path_matches "/" (path r2) ->
  path_matches "/health" (path r1) = path_matches "/health" (path r2) ->
  route app [] r1 = route app [] r2.
Proof. unfold app. cbn [route]. now intros -> -> -> ->. Qed.

(** The status of the answer depends on the request through the router's
    decision, the method and the validators only. *)
Lemma respond_app_status o r1 r2 c p :
  route app [] r1 = o ->
  method r1 = method r2 ->
  conditional r1 = conditional r2 ->
  status (fst (respond o r1 c p)) = status (fst (respond o r2 c p)).
Proof.
  intros R M C. destruct o as [h|code|allow|]; cbn [respond fst];
    rewrite ?status_for_method; try reflexivity.
  destruct (route_invokes _ _ _ _ R) as (m & pat & I).
  destruct (app_handlers _ _ _ I) as [-> | ->].
  - rewrite !root_handler_eq.
    destruct (JSDate.valid_time (wall_ms c)); cbn [fst].
    + now rewrite (send_congr r1 r2 _ M C).
    + now rewrite !status_for_method.
  - rewrite !health_handler_eq. cbn [fst]. now rewrite (send_congr r1 r2 _ M C).
Qed.

(** The verdicts of the body parser. *)
Lemma json_parser_fail req code :
  json_parser req = Fail code ->
  has_body req = true /\ is_json_type req = true /\
  (code = 400 \/ code = 413 \/ code = 415).
Proof.
  unfold json_parser, parse_text.
  destruct (has_body req); [|discriminate].
  destruct (is_json_type req); [|discriminate]. cbn [negb].
  destruct (charset_is_utf req); cbn [negb]; [|intros [= <-]; auto].
  destruct (coding_supported req); cbn [negb]; [|intros [= <-]; auto].
  destruct (_ && _); [intros [= <-]; auto|].
  destruct (body_text req) as [text|]; [|intros [= <-]; auto].
  destruct (_ <? _)%N; [intros [= <-]; auto|].
  destruct (payload_sound req); cbn [negb]; [|intros [= <-]; auto].
  destruct (String.eqb _ _); [discriminate|].
  destruct (strict_first _); cbn [negb]; [|intros [= <-]; auto].
  destruct (JSON.wellformed _); [discriminate|intros [= <-]; auto].
Qed.

(** The statuses of the answers to the requests the body parser passes. *)
Lemma status_passed req c p :
  json_parser req = Pass ->
  status (fst (serve req c p)) = 200 \/
  status (fst (serve req c p)) = 404 \/
  (status (fst (serve req c p)) = 304 /\
   conditional req <> None /\ (method req = GET \/ method req = HEAD)) \/
  (status (fst (serve req c p)) = 500 /\
   JSDate.valid_time (wall_ms c) = false).
Proof.
  intro J.
  assert (S : forall r, status r = 200 ->
            status (send req r) = 200 \/
            (status (send req r) = 304 /\
             conditional req <> None /\ (method req = GET \/ method req = HEAD))).
  { intros r E. unfold send, fresh. rewrite status_for_method.
    destruct (method req) eqn:Mq; try (left; exact E);
      (destruct (conditional req) as [accepts|];
       [|rewrite andb_false_r; left; exact E]);
      (destruct (_ && _); [right|left; exact E]);
      (split; [reflexivity|]); (split; [discriminate|]); auto. }
  unfold serve, handle.
  destruct (route app [] req) as [h|code|allow|] eqn:E; cbn [respond fst].
  - destruct (route_invokes _ _ _ _ E) as (m & pat & I).
    destruct (app_handlers _ _ _ I) as [-> | ->].
    + rewrite root_handler_eq.
      destruct (JSDate.valid_time (wall_ms c)); cbn [fst].
      * destruct (S (welcome (iso_string (wall_ms c))) eq_refl); auto.
      * rewrite status_for_method. auto.
    + rewrite health_handler_eq. cbn [fst].
      destruct (S (healthy ((hrtime_ns c - start_time p) # nsPerSec)) eq_refl);
        auto.
  - exfalso. revert E. unfold app. cbn [route]. rewrite J.
    destruct (path_matches "/" (path req)),
             (path_matches "/health" (path req)), (method req);
      discriminate.
  - auto.
  - rewrite status_for_method. auto.
Qed.

End ServiceFacts.

Import ServiceFacts.

(** X1. The answers of a sequence of requests are the answers each request
    gets on its own, at its own clock reading, from the process as it was
    at the start: no request changes what a later one is answered, and the
    answers of two sequences served one after the other are those of the
    first followed by those of the second. *)
Theorem X1_requests_independent (p : Process)
    (first second : list (Clock * Request)) :
  fst (run p first) = map (fun cr => fst (serve (snd cr) (fst cr) p)) first /\
  fst (run p (first ++ second)) = fst (run p first) ++ fst (run p second).
Proof.
  assert (M : forall trace,
             fst (run p trace)
             = map (fun cr => fst (serve (snd cr) (fst cr) p)) trace).
  { induction trace as [|[c req] rest IH]; [reflexivity|].
    cbn [run map fst snd].
    pose proof (serve_keeps_process req c p) as K.
    destruct (serve req c p) as [r p1]. cbn [snd fst] in *. subst p1.
    destruct (run p rest) as [rs p2]. cbn [fst] in *. now rewrite IH. }
  split; [apply M|]. now rewrite !M, map_app.
Qed.

(** X2. A [HEAD] request gets the status its [GET] twin gets, whatever the
    path and the body, and never a body. *)
Theorem X2_head_mirrors_get (req : Request) (c : Clock) (p : Process) :
  status (fst (serve (Edit.with_method HEAD req) c p))
  = status (fst (serve (Edit.with_method GET req) c p)) /\
  body (fst (serve (Edit.with_method HEAD req) c p)) = NoBody.
Proof.
  unfold serve, handle, app. cbn [route].
  change (json_parser (Edit.with_method HEAD req)) with (json_parser req).
  change (json_parser (Edit.with_method GET req)) with (json_parser req).
  cbn [Edit.with_method path method handles_method Method_eqb orb andb].
  assert (S : forall r,
            status (send (Edit.with_method HEAD req) r)
            = status (send (Edit.with_method GET req) r) /\
            body (send (Edit.with_method HEAD req) r) = NoBody).
  { intro r. unfold send, fresh. cbn [Edit.with_method method conditional].
    split; [now rewrite !status_for_method|reflexivity]. }
  destruct (json_parser req); [|split; reflexivity].
  destruct (path_matches "/" (path req)).
  - cbn [respond]. rewrite !root_handler_eq.
    destruct (JSDate.valid_time (wall_ms c)); cbn [fst];
      [apply S|split; reflexivity].
  - destruct (path_matches "/health" (path req)); [|split; reflexivity].
    cbn [respond]. rewrite !health_handler_eq. cbn [fst]. apply S.
Qed.

(** X4. The statuses of the service.  A request that carries no body
    declared [application/json] is answered 200 or 404, or 304 when it is a
    [GET] or [HEAD] with validators, or 500 when the wall clock shows no
    representable time.  The statuses 400, 413 and 415 come from the body
    parser and go only to requests that carry a body declared
    [application/json]; and these seven are all the statuses there are. *)
Theorem X4_status_codes (req : Request) (c : Clock) (p : Process) :
  (has_body req = false \/ is_json_type req = false ->
   status (fst (serve req c p)) = 200 \/
   status (fst (serve req c p)) = 404 \/
   (status (fst (serve req c p)) = 304 /\
    conditional req <> None /\ (method req = GET \/ method req = HEAD)) \/
   (status (fst (serve req c p)) = 500 /\
    JSDate.valid_time (wall_ms c) = false)) /\
  (status (fst (serve req c p)) = 400 \/
   status (fst (serve req c p)) = 413 \/
   status (fst (serve req c p)) = 415 ->
   has_body req = true /\ is_json_type req = true /\
   json_parser req = Fail (status (fst (serve req c p)))) /\
  In (status (fst (serve req c p))) [200; 304; 400; 404; 413; 415; 500].
Proof.
  assert (F : forall code, json_parser req = Fail code ->
            status (fst (serve req c p)) = code).
  { intros code J. unfold serve, handle. rewrite (route_parser_fail _ _ J).
    cbn [respond fst]. apply status_for_method. }
  split; [|split].
  - intro B. apply status_passed. now apply json_parser_skips.
  - intro S. destruct (json_parser req) as [|code] eqn:J.
    + exfalso. destruct (status_passed req c p J) as [E|[E|[(E & _)|(E & _)]]];
        rewrite E in S; destruct S as [S|[S|S]]; discriminate S.
    + destruct (json_parser_fail _ _ J) as (B & T & _).
      rewrite (F _ eq_refl). auto.
  - destruct (json_parser req) as [|code] eqn:J.
    + destruct (status_passed req c p J) as [E|[E|[(E & _)|(E & _)]]];
        rewrite E; cbn [In]; auto 8.
    + rewrite (F _ eq_refl).
      destruct (json_parser_fail _ _ J) as (_ & _ & [-> |[-> | ->]]);
        cbn [In]; auto 8.
Qed.

Lemma X4_status_codes_witness :
  (has_body Samples.busy = false \/ is_json_type Samples.busy = false) /\
  (status (fst (serve Samples.busy Samples.noon Samples.proc)) = 200 \/
   status (fst (serve Samples.busy Samples.noon Samples.proc)) = 404 \/
   (status (fst (serve Samples.busy Samples.noon Samples.proc)) = 304 /\
    conditional Samples.busy <> None /\
    (method Samples.busy = GET \/ method Samples.busy = HEAD)) \/
   (status (fst (serve Samples.busy Samples.noon Samples.proc)) = 500 /\
    JSDate.valid_time (wall_ms Samples.noon) = false)).
Proof.
  assert (B : has_body Samples.busy = false \/ is_json_type Samples.busy = false)
    by (right; reflexivity).
  split; [exact B|].
  apply (proj1 (X4_status_codes Samples.busy Samples.noon Samples.proc) B).
Defined.

(** X5. The answers of [GET /] tell the milliseconds apart: at two
    representable readings of the wall clock the handler gives the same
    answer exactly when the readings are the same. *)
Theorem X5_answers_differ_by_time (r1 r2 : Request) (c1 c2 : Clock)
    (p1 p2 : Process) :
  JSDate.valid_time (wall_ms c1) = true ->
  JSDate.valid_time (wall_ms c2) = true ->
  (fst (root_handler r1 c1 p1) = fst (root_handler r2 c2 p2)
   <-> wall_ms c1 = wall_ms c2).
Proof.
  intros V1 V2. rewrite !root_handler_eq, V1, V2. cbn [fst]. split.
  - intros [= E].
    pose proof (JSDateFacts.parse_iso_chars _ V1) as P1.
    pose proof (JSDateFacts.parse_iso_chars _ V2) as P2.
    unfold iso_string in E.
    apply (f_equal list_ascii_of_string) in E.
    rewrite !list_ascii_of_string_of_list_ascii in E.
    rewrite E in P1. congruence.
  - now intros ->.
Qed.

Lemma X5_answers_differ_by_time_witness :
  JSDate.valid_time (wall_ms Samples.noon) = true /\
  JSDate.valid_time (wall_ms Samples.later) = true /\
  (fst (root_handler (Samples.get "/") Samples.noon Samples.proc)
   = fst (root_handler (Samples.get "/") Samples.later Samples.proc)
   <-> wall_ms Samples.noon = wall_ms Samples.later).
Proof.
  split; [reflexivity|]. split; [reflexivity|].
  apply (X5_answers_differ_by_time (Samples.get "/") (Samples.get "/")
           Samples.noon Samples.later Samples.proc Samples.proc);
    reflexivity.
Defined.

(** *** Decimal numerals *)

Module DecimalFacts.
Import Runtime Startup.

Lemma decimal_digit a d r :
  0 <= d <= 9 -> decimal a (JSDate.digit_char d :: r) = decimal (10 * a + d) r.
Proof.
  intro H. cbn [decimal]. now rewrite JSDateFacts.digit_value_char.
Qed.

(** Reading the digits written for [n] multiplies what was read before by a
    power of ten and adds [n]. *)
Lemma digits_read f : forall n acc,
  (0 < f)%nat -> 0 <= n < 10 ^ Z.of_nat f ->
  exists k, 0 <= k /\
    forall a, decimal a (digits_of f n acc) = decimal (a * 10 ^ k + n) acc.
Proof.
  induction f as [|f IH]; intros n acc Hf Hn; [lia|].
  cbn [digits_of]. destruct (n <? 10) eqn:C.
  - apply Z.ltb_lt in C. exists 1. split; [lia|]. intro a.
    rewrite Z.mod_small by lia. rewrite decimal_digit by lia.
    f_equal. lia.
  - apply Z.ltb_ge in C.
    rewrite Nat2Z.inj_succ, Z.pow_succ_r in Hn by lia.
    assert (Hf' : (0 < f)%nat).
    { destruct f; [|lia]. cbn in Hn. lia. }
    destruct (IH (n / 10) (JSDate.digit_char (n mod 10) :: acc) Hf')
      as (k & Hk & R); [Z.div_mod_to_equations; lia|].
    exists (k + 1). split; [lia|]. intro a.
    rewrite R, decimal_digit by (Z.div_mod_to_equations; lia).
    f_equal. rewrite Z.pow_add_r by lia.
    Z.div_mod_to_equations; lia.
Qed.

Lemma digits_not_empty f n acc : (0 < f)%nat -> digits_of f n acc <> [].
Proof.
  revert n acc. induction f as [|f IH]; intros n acc Hf; [lia|].
  cbn [digits_of]. destruct (n <? 10); [discriminate|].
  destruct f; [discriminate|]. apply IH. lia.
Qed.

Lemma fuel_enough n : 0 <= n -> n < 10 ^ Z.of_nat (S (Z.to_nat (Z.log2 n))).
Proof.
  intro H.
  rewrite Nat2Z.inj_succ, Z2Nat.id by apply Z.log2_nonneg.
  destruct (Z.eq_dec n 0) as [->|N]; [reflexivity|].
  pose proof (Z.log2_spec n ltac:(lia)) as [_ L].
  eapply Z.lt_le_trans; [exact L|].
  apply Z.pow_le_mono_l. pose proof (Z.log2_nonneg n). lia.
Qed.

(** The numeral written for a natural number reads back as that number. *)
Lemma decimal_to_decimal n :
  0 <= n -> decimal 0 (list_ascii_of_string (to_decimal n)) = Some n.
Proof.
  intro H. unfold to_decimal. rewrite list_ascii_of_string_of_list_ascii.
  destruct (digits_read (S (Z.to_nat (Z.log2 n))) n [] (Nat.lt_0_succ _)
              (conj H (fuel_enough n H))) as (k & _ & R).
  rewrite R. reflexivity.
Qed.

Lemma to_decimal_not_empty n : to_decimal n <> ""%string.
Proof.
  unfold to_decimal. intro E.
  apply (f_equal list_ascii_of_string) in E.
  rewrite list_ascii_of_string_of_list_ascii in E.
  now apply digits_not_empty in E; [|lia].
Qed.

End DecimalFacts.

(** X7. When [PORT] holds the decimal numeral of a port number from 1 to
    65535, the service listens on that port. *)
Theorem X7_port_from_environment (e : gmap string string) (n : Z) :
  1 <= n <= 65535 ->
  e !! "PORT"%string = Some (Startup.to_decimal n) ->
  PORT e = JSStr (Startup.to_decimal n) /\ listen_port e = Some n.
Proof.
  intros Hn E.
  assert (P : PORT e = JSStr (Startup.to_decimal n)).
  { unfold PORT. rewrite E. cbn [or_default].
    destruct (String.eqb_spec (Startup.to_decimal n) "") as [Z|_];
      [now apply DecimalFacts.to_decimal_not_empty in Z|reflexivity]. }
  split; [exact P|]. unfold listen_port. rewrite P. cbn [tcp_port].
  pose proof (DecimalFacts.decimal_to_decimal n ltac:(lia)) as D.
  destruct (list_ascii_of_string (Startup.to_decimal n)) as [|ch cs] eqn:L.
  - exfalso. apply (DecimalFacts.to_decimal_not_empty n).
    rewrite <- (string_of_list_ascii_of_string (Startup.to_decimal n)), L.
    reflexivity.
  - rewrite D.
    replace (1 <=? n) with true by (symmetry; apply Z.leb_le; lia).
    replace (n <=? 65535) with true by (symmetry; apply Z.leb_le; lia).
    reflexivity.
Qed.

Lemma X7_port_from_environment_witness :
  1 <= 8080 <= 65535 /\
  ({[ "PORT"%string := Startup.to_decimal 8080 ]} : gmap string string)
    !! "PORT"%string = Some (Startup.to_decimal 8080) /\
  PORT {[ "PORT"%string := Startup.to_decimal 8080 ]}
  = JSStr (Startup.to_decimal 8080) /\
  listen_port {[ "PORT"%string := Startup.to_decimal 8080 ]} = Some 8080.
Proof.
  assert (R : 1 <= 8080 <= 65535) by lia.
  assert (E : ({[ "PORT"%string := Startup.to_decimal 8080 ]}
                 : gmap string string) !! "PORT"%string
              = Some (Startup.to_decimal 8080))
    by apply lookup_singleton_eq.
  split; [exact R|]. split; [exact E|].
  apply (X7_port_from_environment
           {[ "PORT"%string := Startup.to_decimal 8080 ]} 8080 R E).
Defined.

(** X8. The start-up line repeats the value of [PORT] as it was given,
    and says 3000 when [PORT] is unset or empty, which is then the port
    bound; so the line names the port bound in decimal wherever [PORT] is
    unset, empty or the decimal numeral of a port from 1 to 65535. *)
Theorem X8_startup_line_names_port (e : gmap string string) :
  (forall s, e !! "PORT"%string = Some s -> s <> ""%string ->
     Startup.startup_message e = ("Server is running on port " ++ s)%string) /\
  (e !! "PORT"%string = None \/ e !! "PORT"%string = Some ""%string ->
   Startup.startup_message e = "Server is running on port 3000"%string /\
   listen_port e = Some 3000) /\
  (forall n, 1 <= n <= 65535 ->
     e !! "PORT"%string = Some (Startup.to_decimal n) ->
     exists text,
       Startup.startup_message e
       = ("Server is running on port " ++ text)%string /\
       decimal 0 (list_ascii_of_string text) = Some n).
Proof.
  assert (A : forall s, e !! "PORT"%string = Some s -> s <> ""%string ->
            Startup.startup_message e
            = ("Server is running on port " ++ s)%string).
  { intros s E N. unfold Startup.startup_message, PORT. rewrite E.
    cbn [or_default]. apply String.eqb_neq in N. now rewrite N. }
  split; [exact A|]. split.
  - unfold Startup.startup_message, listen_port, PORT.
    intros [-> | ->]; split; reflexivity.
  - intros n Hn E. exists (Startup.to_decimal n). split.
    + apply A; [exact E|apply DecimalFacts.to_decimal_not_empty].
    + apply DecimalFacts.decimal_to_decimal. lia.
Qed.

Lemma X8_startup_line_names_port_witness :
  1 <= 8080 <= 65535 /\
  Startup.startup_message {[ "PORT"%string := Startup.to_decimal 8080 ]}
  = "Server is running on port 8080"%string /\
  Startup.startup_message ∅ = "Server is running on port 3000"%string /\
  exists text,
    Startup.startup_message {[ "PORT"%string := Startup.to_decimal 8080 ]}
    = ("Server is running on port " ++ text)%string /\
    decimal 0 (list_ascii_of_string text) = Some 8080.
Proof.
  assert (R : 1 <= 8080 <= 65535) by lia.
  assert (E : ({[ "PORT"%string := Startup.to_decimal 8080 ]}
                 : gmap string string) !! "PORT"%string
              = Some (Startup.to_decimal 8080))
    by apply lookup_singleton_eq.
  assert (N : Startup.to_decimal 8080 <> ""%string) by discriminate.
  destruct (X8_startup_line_names_port
              {[ "PORT"%string := Startup.to_decimal 8080 ]}) as (A & _ & C).
  split; [exact R|]. split; [exact (A _ E N)|].
  split; [exact (proj1 (proj1 (proj2 (X8_startup_line_names_port ∅))
                          (or_introl (lookup_empty _))))|].
  exact (C 8080 R E).
Defined.

(** *** The width and the order of timestamps *)

Module TimestampFacts.
Import JSDate JSDateFacts Timestamp.

Lemma length_pad k : forall n, List.length (pad k n) = k.
Proof.
  induction k as [|k IH]; intro n; [reflexivity|].
  cbn [pad]. rewrite length_app, IH. cbn. lia.
Qed.

Lemma length_string_of_list l :
  String.length (string_of_list_ascii l) = List.length l.
Proof. induction l as [|c l IH]; [reflexivity|]. cbn. now rewrite IH. Qed.

Lemma four_digit_valid t : four_digit_year t = true -> valid_time t = true.
Proof.
  unfold four_digit_year, valid_time, first_ms, last_ms, maxTime.
  rewrite !andb_true_iff, !Z.leb_le. lia.
Qed.

(** The year printed has four digits exactly for the instants from
    0000-01-01T00:00:00.000Z to 9999-12-31T23:59:59.999Z. *)
Lemma year_four_digits t y m d :
  civil_from_days (Day t) = (y, m, d) ->
  (four_digit_year t = true <-> 0 <= y <= 9999).
Proof.
  intro E. destruct (civil_from_days_ecma _ _ _ _ E) as (R & _).
  unfold four_digit_year, first_ms, last_ms.
  rewrite andb_true_iff, !Z.leb_le.
  unfold DayFromYear, Day, msPerDay in *.
  split; intro H; Z.div_mod_to_equations; lia.
Qed.

Lemma length_iso_chars t :
  valid_time t = true ->
  List.length (iso_chars t) = if four_digit_year t then 24%nat else 27%nat.
Proof.
  intro V. unfold iso_chars.
  destruct (civil_from_days (Day t)) as [[y m] d] eqn:E.
  pose proof (year_four_digits _ _ _ _ E) as Y.
  unfold year_field.
  destruct (four_digit_year t).
  - destruct Y as [Y _]. specialize (Y eq_refl).
    replace ((0 <=? y) && (y <=? 9999)) with true
      by (symmetry; apply andb_true_iff; rewrite !Z.leb_le; lia).
    repeat (rewrite ?length_app, ?length_pad; cbn [List.length]). lia.
  - destruct ((0 <=? y) && (y <=? 9999)) eqn:C.
    + apply andb_true_iff in C. rewrite !Z.leb_le in C.
      destruct Y as [_ Y]. specialize (Y C). discriminate.
    + destruct (y <? 0);
        repeat (rewrite ?length_app, ?length_pad; cbn [List.length]); lia.
Qed.

(** **** Comparing digit fields *)

Lemma compare_string_of_list a : forall b,
  String.compare (string_of_list_ascii a) (string_of_list_ascii b)
  = compare_chars a b.
Proof.
  induction a as [|x a IH]; intros [|y b]; cbn; try reflexivity.
  now rewrite IH.
Qed.

Lemma compare_digit x y :
  0 <= x <= 9 -> 0 <= y <= 9 ->
  Ascii.compare (digit_char x) (digit_char y) = (x ?= y).
Proof. intros Hx Hy. each_digit x Hx; each_digit y Hy; reflexivity. Qed.

Lemma compare_same c r1 r2 :
  compare_chars (c :: r1) (c :: r2) = compare_chars r1 r2.
Proof.
  cbn [compare_chars]. unfold Ascii.compare. now rewrite N.compare_refl.
Qed.

Lemma compare_chars_refl l : compare_chars l l = Eq.
Proof. induction l as [|c l IH]; [reflexivity|]. now rewrite compare_same. Qed.

(** Two fields of the same width compare as the numbers they show. *)
Lemma compare_pad k : forall a b r1 r2,
  0 <= a < 10 ^ Z.of_nat k -> 0 <= b < 10 ^ Z.of_nat k ->
  compare_chars (pad k a ++ r1) (pad k b ++ r2)
  = match a ?= b with Eq => compare_chars r1 r2 | c => c end.
Proof.
  induction k as [|k IH]; intros a b r1 r2 Ha Hb.
  - cbn in Ha, Hb. replace a with 0 by lia. replace b with 0 by lia.
    reflexivity.
  - rewrite Nat2Z.inj_succ, Z.pow_succ_r in Ha, Hb by lia.
    cbn [pad]. rewrite <- !app_assoc. cbn [List.app].
    rewrite IH by (Z.div_mod_to_equations; lia).
    cbn [compare_chars].
    rewrite compare_digit by (Z.div_mod_to_equations; lia).
    destruct (Z.compare_spec (a / 10) (b / 10));
      destruct (Z.compare_spec (a mod 10) (b mod 10));
      destruct (Z.compare_spec a b);
      try reflexivity; exfalso; Z.div_mod_to_equations; lia.
Qed.

(** **** The fields grow with the instant *)

Lemma DayFromYear_mono a b : a <= b -> DayFromYear a <= DayFromYear b.
Proof. unfold DayFromYear. intro H. Z.div_mod_to_equations; lia. Qed.

Lemma days_before_month_step y m1 m2 :
  1 <= m1 <= 12 -> 1 <= m2 <= 12 -> m1 < m2 ->
  days_before_month y m1 + days_in_month y m1 <= days_before_month y m2.
Proof.
  intros H1 H2 L. unfold days_before_month, days_in_month.
  destruct (is_leap y); each_month m1 H1; each_month m2 H2;
    try (exfalso; lia); eval_month_tests; lia.
Qed.

Lemma civil_lt z1 z2 y1 m1 d1 y2 m2 d2 :
  z1 < z2 ->
  civil_from_days z1 = (y1, m1, d1) ->
  civil_from_days z2 = (y2, m2, d2) ->
  y1 < y2 \/ (y1 = y2 /\ (m1 < m2 \/ (m1 = m2 /\ d1 < d2))).
Proof.
  intros L E1 E2.
  destruct (civil_from_days_ecma _ _ _ _ E1) as (R1 & M1 & D1 & Z1).
  destruct (civil_from_days_ecma _ _ _ _ E2) as (R2 & M2 & D2 & Z2).
  destruct (Z.lt_trichotomy y1 y2) as [?|[->|G]]; [now left| |].
  - right. split; [reflexivity|].
    destruct (Z.lt_trichotomy m1 m2) as [?|[->|G]]; [now left| |].
    + right. split; [reflexivity|]. lia.
    + pose proof (days_before_month_step y2 m2 m1 M2 M1 G). lia.
  - pose proof (DayFromYear_mono (y2 + 1) y1 ltac:(lia)). lia.
Qed.

Lemma time_lt t1 t2 :
  Day t1 = Day t2 -> t1 < t2 ->
  HourFromTime t1 < HourFromTime t2 \/
  (HourFromTime t1 = HourFromTime t2 /\
   (MinFromTime t1 < MinFromTime t2 \/
    (MinFromTime t1 = MinFromTime t2 /\
     (SecFromTime t1 < SecFromTime t2 \/
      (SecFromTime t1 = SecFromTime t2 /\ msFromTime t1 < msFromTime t2))))).
Proof.
  intros D L.
  destruct (time_fields t1) as (H1 & I1 & S1 & M1 & T1).
  destruct (time_fields t2) as (H2 & I2 & S2 & M2 & T2).
  pose proof (Z.div_mod t1 msPerDay ltac:(discriminate)) as A1.
  pose proof (Z.div_mod t2 msPerDay ltac:(discriminate)) as A2.
  fold (Day t1) (TimeWithinDay t1) in A1.
  fold (Day t2) (TimeWithinDay t2) in A2.
  rewrite D in A1. lia.
Qed.

(** The digits of an instant, as the seven numbers printed. *)
Lemma fields_lt t1 t2 y1 m1 d1 y2 m2 d2 :
  t1 < t2 ->
  civil_from_days (Day t1) = (y1, m1, d1) ->
  civil_from_days (Day t2) = (y2, m2, d2) ->
  y1 < y2 \/ (y1 = y2 /\ (m1 < m2 \/ (m1 = m2 /\ (d1 < d2 \/ (d1 = d2 /\
  (HourFromTime t1 < HourFromTime t2 \/
   (HourFromTime t1 = HourFromTime t2 /\
    (MinFromTime t1 < MinFromTime t2 \/
     (MinFromTime t1 = MinFromTime t2 /\
      (SecFromTime t1 < SecFromTime t2 \/
       (SecFromTime t1 = SecFromTime t2 /\
        msFromTime t1 < msFromTime t2))))))))))).
Proof.
  intros L E1 E2.
  assert (D : Day t1 < Day t2 \/ Day t1 = Day t2)
    by (unfold Day, msPerDay; Z.div_mod_to_equations; lia).
  destruct D as [D|D].
  - destruct (civil_lt _ _ _ _ _ _ _ _ D E1 E2) as [?|(-> & [?|(-> & ?)])];
      auto 10.
  - rewrite D in E1. rewrite E1 in E2. injection E2 as -> -> ->.
    right. split; [reflexivity|]. right. split; [reflexivity|].
    right. split; [reflexivity|]. now apply time_lt.
Qed.

Lemma compare_iso_chars_lt t1 t2 :
  four_digit_year t1 = true -> four_digit_year t2 = true -> t1 < t2 ->
  compare_chars (iso_chars t1) (iso_chars t2) = Lt.
Proof.
  intros F1 F2 L. unfold iso_chars.
  destruct (civil_from_days (Day t1)) as [[y1 m1] d1] eqn:E1.
  destruct (civil_from_days (Day t2)) as [[y2 m2] d2] eqn:E2.
  pose proof (proj1 (year_four_digits _ _ _ _ E1) F1) as Y1.
  pose proof (proj1 (year_four_digits _ _ _ _ E2) F2) as Y2.
  destruct (civil_fields _ _ _ _ E1) as (M1 & D1 & _).
  destruct (civil_fields _ _ _ _ E2) as (M2 & D2 & _).
  assert (D1' : d1 <= 31).
  { unfold days_in_month in D1.
    destruct (m1 =? 2); [destruct (is_leap y1)|destruct (_ || _)]; lia. }
  assert (D2' : d2 <= 31).
  { unfold days_in_month in D2.
    destruct (m2 =? 2); [destruct (is_leap y2)|destruct (_ || _)]; lia. }
  destruct (time_fields t1) as (H1 & I1 & S1 & N1 & _).
  destruct (time_fields t2) as (H2 & I2 & S2 & N2 & _).
  pose proof (fields_lt _ _ _ _ _ _ _ _ L E1 E2) as O.
  unfold year_field.
  replace ((0 <=? y1) && (y1 <=? 9999)) with true
    by (symmetry; apply andb_true_iff; rewrite !Z.leb_le; lia).
  replace ((0 <=? y2) && (y2 <=? 9999)) with true
    by (symmetry; apply andb_true_iff; rewrite !Z.leb_le; lia).
  rewrite compare_pad by (cbn; lia). rewrite compare_same.
  rewrite compare_pad by (cbn; lia). rewrite compare_same.
  rewrite compare_pad by (cbn; lia). rewrite compare_same.
  rewrite compare_pad by (cbn; lia). rewrite compare_same.
  rewrite compare_pad by (cbn; lia). rewrite compare_same.
  rewrite compare_pad by (cbn; lia). rewrite compare_same.
  rewrite compare_pad by (cbn; lia).
  repeat match goal with
    | |- context [?a ?= ?b] => destruct (Z.compare_spec a b)
    end; try reflexivity; exfalso; lia.
Qed.

(** Timestamps with four-digit years compare as their instants do. *)
Lemma compare_iso_chars t1 t2 :
  four_digit_year t1 = true -> four_digit_year t2 = true ->
  compare_chars (iso_chars t1) (iso_chars t2) = (t1 ?= t2).
Proof.
  intros F1 F2. destruct (Z.compare_spec t1 t2) as [->|L|G].
  - apply compare_chars_refl.
  - now apply compare_iso_chars_lt.
  - rewrite <- compare_string_of_list, String.compare_antisym,
      compare_string_of_list, compare_iso_chars_lt by assumption.
    reflexivity.
Qed.

End TimestampFacts.

(** X9. The [timestamp] of [GET /] has a fixed width: 24 characters for
    every instant from year 0000 to year 9999, and 27 characters, the year
    then being signed and six digits long, for every other representable
    instant. *)
Theorem X9_timestamp_width (req : Request) (c : Clock) (p : Process) :
  JSDate.valid_time (wall_ms c) = true ->
  exists r ts,
    root_handler req c p = (inr r, p) /\
    timestamp_of r = Some ts /\
    String.length ts
    = if Timestamp.four_digit_year (wall_ms c) then 24%nat else 27%nat.
Proof.
  intro V. rewrite root_handler_eq, V.
  exists (welcome (iso_string (wall_ms c))), (iso_string (wall_ms c)).
  split; [reflexivity|]. split; [reflexivity|].
  unfold iso_string. rewrite TimestampFacts.length_string_of_list.
  now apply TimestampFacts.length_iso_chars.
Qed.

Lemma X9_timestamp_width_witness :
  JSDate.valid_time (wall_ms Samples.noon) = true /\
  exists r ts,
    root_handler (Samples.get "/") Samples.noon Samples.proc
      = (inr r, Samples.proc) /\
    timestamp_of r = Some ts /\
    String.length ts
    = if Timestamp.four_digit_year (wall_ms Samples.noon)
      then 24%nat else 27%nat.
Proof.
  split; [reflexivity|].
  apply (X9_timestamp_width (Samples.get "/") Samples.noon Samples.proc).
  reflexivity.
Defined.

(** X10. Timestamps sort as time runs: for two [GET /] requests handled at
    instants from year 0000 to year 9999, comparing the two [timestamp]
    strings character by character gives the order of the two instants. *)
Theorem X10_timestamps_sort (r1 r2 : Request) (c1 c2 : Clock)
    (p1 p2 : Process) :
  Timestamp.four_digit_year (wall_ms c1) = true ->
  Timestamp.four_digit_year (wall_ms c2) = true ->
  exists a1 a2 ts1 ts2,
    root_handler r1 c1 p1 = (inr a1, p1) /\
    root_handler r2 c2 p2 = (inr a2, p2) /\
    timestamp_of a1 = Some ts1 /\
    timestamp_of a2 = Some ts2 /\
    String.compare ts1 ts2 = (wall_ms c1 ?= wall_ms c2).
Proof.
  intros F1 F2.
  rewrite !root_handler_eq,
    (TimestampFacts.four_digit_valid _ F1),
    (TimestampFacts.four_digit_valid _ F2).
  exists (welcome (iso_string (wall_ms c1))), (welcome (iso_string (wall_ms c2))),
    (iso_string (wall_ms c1)), (iso_string (wall_ms c2)).
  repeat (split; [reflexivity|]).
  unfold iso_string. rewrite TimestampFacts.compare_string_of_list.
  now apply TimestampFacts.compare_iso_chars.
Qed.

Lemma X10_timestamps_sort_witness :
  Timestamp.four_digit_year (wall_ms Samples.noon) = true /\
  Timestamp.four_digit_year (wall_ms Samples.later) = true /\
  exists a1 a2 ts1 ts2,
    root_handler (Samples.get "/") Samples.noon Samples.proc
      = (inr a1, Samples.proc) /\
    root_handler (Samples.get "/") Samples.later Samples.proc
      = (inr a2, Samples.proc) /\
    timestamp_of a1 = Some ts1 /\
    timestamp_of a2 = Some ts2 /\
    String.compare ts1 ts2 = (wall_ms Samples.noon ?= wall_ms Samples.later).
Proof.
  split; [reflexivity|]. split; [reflexivity|].
  apply (X10_timestamps_sort (Samples.get "/") (Samples.get "/") Samples.noon
           Samples.later Samples.proc Samples.proc); reflexivity.
Defined.

(** *** A slash at the end of the path *)

Module SlashFacts.
Import Express.

Lemma list_ascii_of_string_app a b :
  list_ascii_of_string (a ++ b)
  = (list_ascii_of_string a ++ list_ascii_of_string b)%list.
Proof.
  induction a as [|c a IH]; [reflexivity|].
  change (String c a ++ b)%string with (String c (a ++ b)).
  cbn [list_ascii_of_string List.app]. f_equal. exact IH.
Qed.

Lemma ends_with_slash_app a : ends_with_slash (a ++ "/") = true.
Proof.
  unfold ends_with_slash. rewrite list_ascii_of_string_app, rev_app_distr.
  reflexivity.
Qed.

Lemma lower_app a b : lower (a ++ b) = (lower a ++ lower b)%string.
Proof.
  induction a as [|c a IH]; [reflexivity|].
  change (String c a ++ b)%string with (String c (a ++ b)).
  cbn [lower]. change (String (lower_char c) (lower a) ++ lower b)%string
    with (String (lower_char c) (lower a ++ lower b)).
  f_equal. exact IH.
Qed.

Lemma lower_char_slash c :
  Ascii.eqb (lower_char c) "/" = Ascii.eqb c "/".
Proof.
  destruct c as [[] [] [] [] [] [] [] []]; reflexivity.
Qed.

Lemma list_ascii_of_lower s :
  list_ascii_of_string (lower s) = map lower_char (list_ascii_of_string s).
Proof.
  induction s as [|c s IH]; [reflexivity|].
  cbn [lower list_ascii_of_string map]. f_equal. exact IH.
Qed.

Lemma ends_with_slash_lower s : ends_with_slash (lower s) = ends_with_slash s.
Proof.
  unfold ends_with_slash. rewrite list_ascii_of_lower, <- map_rev.
  destruct (rev (list_ascii_of_string s)) as [|c r]; [reflexivity|].
  cbn [map]. rewrite Ascii.eqb_sym. rewrite <- (lower_char_slash c).
  apply Ascii.eqb_sym.
Qed.

Lemma append_slash_inj a b : (a ++ "/" = b ++ "/")%string -> a = b.
Proof.
  revert b. induction a as [|c a IH]; intros [|d b] E; cbn in E.
  - reflexivity.
  - injection E as _ E. now destruct b.
  - injection E as _ E. now destruct a.
  - injection E as -> E. f_equal. now apply IH.
Qed.

Lemma eqb_append_slash a b :
  String.eqb (a ++ "/") (b ++ "/") = String.eqb a b.
Proof.
  destruct (String.eqb_spec a b) as [->|N].
  - apply String.eqb_refl.
  - apply String.eqb_neq. intro E. now apply append_slash_inj in E.
Qed.

Lemma eqb_no_slash s t :
  ends_with_slash s = false -> ends_with_slash t = true ->
  String.eqb s t = false.
Proof. intros A B. apply String.eqb_neq. intros ->. congruence. Qed.

(** With or without a slash at its end a path meets the same routes. *)
Lemma path_matches_slash pattern p :
  pattern = "/"%string \/ pattern = "/health"%string ->
  ends_with_slash p = false ->
  path_matches pattern (p ++ "/") = path_matches pattern p.
Proof.
  intros P E. unfold path_matches. rewrite lower_app.
  pose proof (ends_with_slash_lower p) as L. rewrite E in L.
  change (lower "/") with "/"%string.
  destruct P as [-> | ->].
  - change (ends_with_slash (lower "/")) with true. cbv iota.
    change (lower "/") with ("" ++ "/")%string.
    change (drop_last ("" ++ "/")) with ""%string.
    rewrite eqb_append_slash.
    rewrite (eqb_no_slash (lower p) ("" ++ "/")) by (exact L || reflexivity).
    replace (String.eqb (lower p ++ "/") "") with false
      by (now destruct (lower p)).
    now rewrite orb_false_r.
  - change (ends_with_slash (lower "/health")) with false. cbv iota.
    change (lower "/health") with "/health"%string.
    rewrite eqb_append_slash.
    rewrite (eqb_no_slash (lower p) ("/health" ++ "/"))
      by (exact L || reflexivity).
    rewrite String.eqb_sym.
    rewrite (eqb_no_slash "/health" (lower p ++ "/"))
      by (reflexivity || apply ends_with_slash_app).
    now rewrite orb_false_r.
Qed.

End SlashFacts.

(** X11. A slash at the end of the path does not change where a request
    goes: a request whose path does not end in a slash gets, with the slash
    added, the same decision of the router and an answer of the same
    status; on the two routes a [GET], [HEAD] or [OPTIONS] request that
    carries no body declared [application/json] gets the very same answer,
    the wall clock showing a representable time.  (Off the routes the page
    of the answer names the path, slash and all.) *)
Theorem X11_trailing_slash (req : Request) (c : Clock) (p : Process) :
  ends_with_slash (path req) = false ->
  route app [] (Edit.with_path (path req ++ "/") req) = route app [] req /\
  status (fst (serve (Edit.with_path (path req ++ "/") req) c p))
  = status (fst (serve req c p)) /\
  (registered_path (path req) = true ->
   routed_method (method req) = true ->
   has_body req = false \/ is_json_type req = false ->
   JSDate.valid_time (wall_ms c) = true ->
   serve (Edit.with_path (path req ++ "/") req) c p = serve req c p).
Proof.
  intro E.
  assert (R : route app [] (Edit.with_path (path req ++ "/") req)
              = route app [] req).
  { apply route_app_congr; try reflexivity;
      cbn [Edit.with_path path]; apply SlashFacts.path_matches_slash; auto. }
  split; [exact R|]. split.
  - unfold serve, handle. rewrite R.
    symmetry. now apply respond_app_status.
  - intros P M B V. unfold serve, handle. rewrite R.
    pose proof (json_parser_skips _ B) as J.
    unfold registered_path in P.
    assert (G : method req = OPTIONS \/ handles_method GET (method req) = true)
      by (destruct (method req); try discriminate M; auto).
    destruct G as [O|G].
    + assert (A : route app [] req = AutoOptions [GET; HEAD]).
      { unfold app. cbn [route]. rewrite J, O.
        destruct (path_matches "/" (path req)) eqn:P1.
        - now rewrite (path_root_not_health _ P1).
        - cbn [orb] in P. now rewrite P. }
      now rewrite A.
    + destruct (path_matches "/" (path req)) eqn:P1.
      * rewrite (route_get_root _ J P1 G). cbn [respond].
        rewrite !root_handler_eq, V. reflexivity.
      * cbn [orb] in P. rewrite (route_get_health _ J P G). cbn [respond].
        rewrite !health_handler_eq. reflexivity.
Qed.

Lemma X11_trailing_slash_witness :
  ends_with_slash (path (Samples.get "/health")) = false /\
  status (fst (serve (Edit.with_path (path (Samples.get "/health") ++ "/")
                        (Samples.get "/health")) Samples.noon Samples.proc))
  = status (fst (serve (Samples.get "/health") Samples.noon Samples.proc)) /\
  serve (Edit.with_path (path (Samples.get "/health") ++ "/")
           (Samples.get "/health")) Samples.noon Samples.proc
  = serve (Samples.get "/health") Samples.noon Samples.proc.
Proof.
  destruct (X11_trailing_slash (Samples.get "/health") Samples.noon
              Samples.proc eq_refl) as (_ & S & W).
  split; [reflexivity|]. split; [exact S|].
  apply W; try reflexivity. left. reflexivity.
Defined.

(** ** The router's own answer to [OPTIONS] *)

(** X12. An [OPTIONS] request that carries no body declared
    [application/json] is answered by the router itself on the two paths,
    with status 200 and the list [GET,HEAD] of the methods allowed there,
    and no handler runs. *)
Theorem X12_options_allow (req : Request) (c : Clock) (p : Process) :
  method req = OPTIONS ->
  has_body req = false \/ is_json_type req = false ->
  registered_path (path req) = true ->
  route app [] req = AutoOptions [GET; HEAD] /\
  serve req c p = ({| status := 200; body := TextBody "GET,HEAD" |}, p).
Proof.
  intros M B P. pose proof (json_parser_skips _ B) as J.
  assert (R : route app [] req = AutoOptions [GET; HEAD]).
  { unfold app. cbn [route]. rewrite J, M. unfold registered_path in P.
    destruct (path_matches "/" (path req)) eqn:P1.
    - now rewrite (path_root_not_health _ P1).
    - cbn [orb] in P. now rewrite P. }
  split; [exact R|]. unfold serve, handle. now rewrite R.
Qed.

Lemma X12_options_allow_witness :
  method (Samples.with_method OPTIONS (Samples.get "/")) = OPTIONS /\
  (has_body (Samples.with_method OPTIONS (Samples.get "/")) = false \/
   is_json_type (Samples.with_method OPTIONS (Samples.get "/")) = false) /\
  registered_path (path (Samples.with_method OPTIONS (Samples.get "/"))) = true /\
  route app [] (Samples.with_method OPTIONS (Samples.get "/"))
  = AutoOptions [GET; HEAD] /\
  serve (Samples.with_method OPTIONS (Samples.get "/")) Samples.noon Samples.proc
  = ({| status := 200; body := TextBody "GET,HEAD" |}, Samples.proc).
Proof.
  split; [reflexivity|]. split; [left; reflexivity|]. split; [reflexivity|].
  apply (X12_options_allow (Samples.with_method OPTIONS (Samples.get "/"))
           Samples.noon Samples.proc); try reflexivity. left. reflexivity.
Defined.

